(** * zip-to-parquet cloud function: a shallow embedding and its properties

    The development follows [src/functions/zip-to-parquet-python/main.py],
    whose single entry point [convert_to_geoparquet] downloads an uploaded
    zip archive, picks a data source inside it, asks GDAL to translate it to
    GeoParquet and uploads the result.

    Layout:
    - [PyStr]     the Python string operations the function uses;
    - [PosixPath] the part of [pathlib.PurePosixPath] it uses;
    - [Runtime]   scratch storage, the log, external calls, and a small
                  state/exception monad with Python's [return] and
                  [try/except/finally];
    - [Main]      the function itself, line by line;
    - [Scenarios] concrete collaborators;
    - facts about strings, paths and the source selection, the symbolic
      execution tactics of [Exec], and the properties of an invocation in
      [Properties];
    - [SuffixFacts], [PathFacts], [OrderFacts] and [RunProperties]: more
      about the suffix tests, [pathlib] names, the order of the listing and
      whole invocations. *)

From Stdlib Require Import Ascii String List Bool Arith Lia.
From stdpp Require Import base decidable option list strings gmap.

Set Default Proof Using "Type".

(* ===================================================================== *)
(** ** Python string operations *)
(* ===================================================================== *)

(** Object and entry names are modelled as [string]s of 8-bit characters.
    [str.lower] maps [A-Z] to [a-z] and leaves every other character of that
    alphabet alone; the function only compares lowered names with ASCII
    suffixes. *)
Module PyStr.

(** [c.lower()] for one character. *)
Definition lower_char (c : ascii) : ascii :=
  let n := nat_of_ascii c in
  if (65 <=? n) && (n <=? 90) then ascii_of_nat (n + 32) else c.

(** [s.lower()] *)
Fixpoint lower (s : string) : string :=
  match s with
  | EmptyString => EmptyString
  | String c r => String (lower_char c) (lower r)
  end.

(** [s.endswith(suf)]: some tail of [s] is [suf]. *)
Fixpoint endswith (s suf : string) : bool :=
  String.eqb s suf ||
  match s with
  | EmptyString => false
  | String _ r => endswith r suf
  end.

(** [s[-1]] when [s] is not empty. *)
Fixpoint last_char (s : string) : option ascii :=
  match s with
  | EmptyString => None
  | String c EmptyString => Some c
  | String _ r => last_char r
  end.

(** [s.split(sep)] for a one-character separator. *)
Fixpoint split (sep : ascii) (s : string) : list string :=
  match s with
  | EmptyString => [EmptyString]
  | String c r =>
      if Ascii.eqb c sep then EmptyString :: split sep r
      else match split sep r with
           | h :: t => String c h :: t
           | [] => [String c EmptyString]
           end
  end.

(** [sep.join(parts)] *)
Definition join (sep : string) (parts : list string) : string :=
  String.concat sep parts.

(** [s.rfind(c)], with [None] for Python's [-1]. *)
Fixpoint rfind (c : ascii) (s : string) : option nat :=
  match s with
  | EmptyString => None
  | String a r =>
      match rfind c r with
      | Some i => Some (S i)
      | None => if Ascii.eqb a c then Some 0 else None
      end
  end.

(** Truth value of an [Optional[str]]: [None] and [''] are falsy. *)
Definition truthy (o : option string) : bool :=
  match o with
  | Some s => negb (String.eqb s "")
  | None => false
  end.

(** [next((f for f in l if p(f)), None)] *)
Definition next_or_None (p : string → bool) (l : list string) : option string :=
  List.find p l.

End PyStr.

(* ===================================================================== *)
(** ** pathlib on a POSIX host *)
(* ===================================================================== *)

(** [Path(p).parent] and [Path(p).stem] as [PurePosixPath] computes them
    (the [rfind]-based [stem] of CPython up to 3.13). *)
Module PosixPath.
Import PyStr.

Record parsed := Parsed { root : string; tail : list string }.

(** [posixpath.splitroot]: no leading slash, exactly two, or one / three
    and more (which collapse to one). *)
Definition splitroot (p : string) : string * string :=
  match p with
  | String "/" (String "/" (String "/" r)) => ("/", String "/" (String "/" r))
  | String "/" (String "/" r) => ("//", r)
  | String "/" r => ("/", r)
  | _ => ("", p)
  end.

Definition keep_part (x : string) : bool :=
  negb (String.eqb x "") && negb (String.eqb x ".").

(** [PurePath._parse_path] *)
Definition parse_path (p : string) : parsed :=
  if String.eqb p "" then Parsed "" []
  else let '(rt, rel) := splitroot p in
       Parsed rt (List.filter keep_part (split "/" rel)).

(** [str(path)] *)
Definition format_parsed (q : parsed) : string :=
  let s := root q +:+ join "/" (tail q) in
  if String.eqb s "" then "." else s.

(** [str(Path(p).parent)]: a path without components is its own parent. *)
Definition parent (p : string) : string :=
  let q := parse_path p in
  format_parsed (Parsed (root q) (removelast (tail q))).

(** [Path(p).name] *)
Definition name (p : string) : string :=
  List.last (tail (parse_path p)) "".

(** [Path(p).stem] *)
Definition stem (p : string) : string :=
  let n := name p in
  match rfind "." n with
  | Some i =>
      if (0 <? i) && (i <? String.length n - 1) then substring 0 i n else n
  | None => n
  end.

End PosixPath.

(* ===================================================================== *)
(** ** The world around one invocation *)
(* ===================================================================== *)

Module Runtime.

(** Python exceptions.  [except Exception] catches the instances of
    [Exception]; [KeyboardInterrupt], [SystemExit] and [GeneratorExit]
    derive from [BaseException] only and pass through it. *)
Inductive exn_class := StdException | SystemExiting.

Record exn := Exn { exn_class_of : exn_class; exn_str : string }.

Definition is_Exception (e : exn) : bool :=
  match exn_class_of e with StdException => true | SystemExiting => false end.

Definition UnboundLocalError (var : string) : exn :=
  Exn StdException
    ("cannot access local variable '" +:+ var +:+
     "' where it is not associated with a value").

Definition FileNotFoundError (path : string) : exn :=
  Exn StdException
    ("[Errno 2] No such file or directory: '" +:+ path +:+ "'").

(** The fixed options record handed to [gdal.VectorTranslate]. *)
Record translate_options := TranslateOptions {
  format : string;
  layerCreationOptions : list string;
  accessMode : string;
  makeValid : bool;
  gdal_config_options : list (string * string)
}.

(** Calls that leave the process, in the order they were attempted. *)
Inductive action :=
| ActDownload (bucket_name blob_name dst : string)
| ActOpenZip (path : string)
| ActConvert (dst src : string) (opts : translate_options)
| ActUpload (bucket_name : option string) (blob_name src : string)
| ActRemove (path : string).

(** What the collaborators answer during this invocation.  None of them is
    part of the repository: each is an arbitrary function of the call's
    arguments. *)
Inductive download_result :=
| DownloadOk
| DownloadRaises (e : exn) (leaves_file : bool).

Inductive zip_result :=
| ZipOk (namelist : list string)
| ZipRaises (e : exn).

Record convert_result := ConvertResult {
  conv_raises : option exn;
  conv_writes : bool
}.

Record env := Env {
  (** [os.environ.get('OUTPUT_BUCKET')] *)
  OUTPUT_BUCKET_NAME : option string;
  (** [storage_client.bucket(name)]: [Some e] when building the handle
      raises [e]. *)
  client_bucket : option string → option exn;
  (** [blob.download_to_filename(dst)] for the blob of a bucket. *)
  blob_download : string → string → string → download_result;
  (** [zipfile.ZipFile(path, 'r')] followed by [namelist()]. *)
  zip_namelist : string → zip_result;
  (** [gdal.VectorTranslateOptions(...)] on the given keyword arguments:
      [Some e] when building the options object raises [e]. *)
  vector_translate_options : translate_options → option exn;
  (** [gdal.VectorTranslate(dst, src, options=...)] *)
  vector_translate : string → string → convert_result;
  (** [blob.upload_from_filename(src)] for the blob of a bucket. *)
  blob_upload : option string → string → string → option exn
}.

(** The state one invocation threads through: scratch storage (the set of
    paths that exist), the log, the external calls made so far, the
    objects written to the destination, and the two local variables that
    outlive the [try] block ([None] in [local_zip_path] is "not bound
    yet"; [source_data_path] holds a Python [Optional[str]]). *)
Record state := State {
  fs : gset string;
  log : list string;
  acts : list action;
  uploaded : list (option string * string);
  source_data_path : option string;
  local_zip_path : option string
}.

Definition with_fs (f : gset string → gset string) (s : state) : state :=
  State (f (fs s)) (log s) (acts s) (uploaded s)
        (source_data_path s) (local_zip_path s).
Definition with_log (f : list string → list string) (s : state) : state :=
  State (fs s) (f (log s)) (acts s) (uploaded s)
        (source_data_path s) (local_zip_path s).
Definition with_acts (f : list action → list action) (s : state) : state :=
  State (fs s) (log s) (f (acts s)) (uploaded s)
        (source_data_path s) (local_zip_path s).
Definition with_uploaded
    (f : list (option string * string) → list (option string * string))
    (s : state) : state :=
  State (fs s) (log s) (acts s) (f (uploaded s))
        (source_data_path s) (local_zip_path s).
Definition with_source_data_path (v : option string) (s : state) : state :=
  State (fs s) (log s) (acts s) (uploaded s) v (local_zip_path s).
Definition with_local_zip_path (v : option string) (s : state) : state :=
  State (fs s) (log s) (acts s) (uploaded s) (source_data_path s) v.

(** Questions about the calls a run made. *)
Definition is_download (a : action) : bool :=
  match a with ActDownload _ _ _ => true | _ => false end.
Definition is_open_zip (a : action) : bool :=
  match a with ActOpenZip _ => true | _ => false end.
Definition is_convert (a : action) : bool :=
  match a with ActConvert _ _ _ => true | _ => false end.
Definition is_upload (a : action) : bool :=
  match a with ActUpload _ _ _ => true | _ => false end.
Definition is_remove_of (p : string) (a : action) : bool :=
  match a with ActRemove q => String.eqb p q | _ => false end.

Definition attempted (k : action → bool) (s : state) : bool :=
  existsb k (acts s).
Definition attempts (k : action → bool) (s : state) : nat :=
  length (List.filter k (acts s)).

(** The state at function entry, over a given scratch storage. *)
Definition entry (fs0 : gset string) : state :=
  State fs0 [] [] [] None None.

(** *** Control: normal completion, [return], or a raised exception *)
Inductive ctl (A : Type) :=
| Normal (a : A)
| Returned
| Raised (e : exn).
Arguments Normal {A} a.
Arguments Returned {A}.
Arguments Raised {A} e.

Definition M (A : Type) : Type := state → ctl A * state.

Definition ret {A} (a : A) : M A := λ s, (Normal a, s).

Definition bind {A B} (m : M A) (f : A → M B) : M B :=
  λ s, match m s with
       | (Normal a, s') => f a s'
       | (Returned, s') => (Returned, s')
       | (Raised e, s') => (Raised e, s')
       end.

Declare Scope py_scope.
Delimit Scope py_scope with py.
Bind Scope py_scope with M.
Notation "x ← y ; z" := (bind y (λ x, z))
  (at level 20, y at level 100, z at level 200, only parsing) : py_scope.
Notation "x ;; z" := (bind x (λ _, z))
  (at level 100, z at level 200, only parsing, right associativity) : py_scope.
Open Scope py_scope.

(** [return] *)
Definition py_return {A} : M A := λ s, (Returned, s).

(** [raise e] *)
Definition py_raise {A} (e : exn) : M A := λ s, (Raised e, s).

Definition modify (f : state → state) : M unit := λ s, (Normal tt, f s).
Definition gets {A} (f : state → A) : M A := λ s, (Normal (f s), s).

(** [try: body / except Exception as e: handler e / finally: fin].
    The handler runs for instances of [Exception] only; the [finally]
    block runs on every way out of the first two, and when it raises or
    returns itself, that replaces the pending outcome. *)
Definition try_except_finally {A}
    (body : M A) (handler : exn → M A) (fin : M unit) : M A :=
  λ s,
    let '(r1, s1) := body s in
    let '(r2, s2) :=
      match r1 with
      | Raised e => if is_Exception e then handler e s1 else (Raised e, s1)
      | _ => (r1, s1)
      end in
    match fin s2 with
    | (Normal _, s3) => (r2, s3)
    | (Returned, s3) => (Returned, s3)
    | (Raised e', s3) => (Raised e', s3)
    end.

(** [try: body / except Exception as e: handler e] *)
Definition try_except {A} (body : M A) (handler : exn → M A) : M A :=
  try_except_finally body handler (ret tt).

(** *** Primitive operations *)

(** [print(msg)] *)
Definition print (msg : string) : M unit :=
  modify (with_log (λ l, l ++ [msg])).

Definition record (a : action) : M unit :=
  modify (with_acts (λ l, l ++ [a])).

(** [os.path.exists(p)] *)
Definition os_path_exists (p : string) : M bool :=
  gets (λ s, bool_decide (p ∈ fs s)).

(** [os.remove(p)] *)
Definition os_remove (p : string) : M unit :=
  λ s, if bool_decide (p ∈ fs s)
       then (Normal tt, with_acts (λ l, l ++ [ActRemove p])
                          (with_fs (λ f, f ∖ {[p]}) s))
       else (Raised (FileNotFoundError p), s).

(** Reading a local variable; an unbound one raises. *)
Definition read_local_zip_path : M string :=
  λ s, match local_zip_path s with
       | Some p => (Normal p, s)
       | None => (Raised (UnboundLocalError "local_zip_path"), s)
       end.

Section Calls.
Variable E : env.

(** [storage_client.bucket(name)] *)
Definition storage_bucket (name : option string) : M unit :=
  match client_bucket E name with
  | Some e => py_raise e
  | None => ret tt
  end.

(** [bucket.blob(blob_name).download_to_filename(dst)]: on success the
    file exists; on failure the library may or may not leave one. *)
Definition download_to_filename (bucket_name blob_name dst : string) : M unit :=
  record (ActDownload bucket_name blob_name dst) ;;
  match blob_download E bucket_name blob_name dst with
  | DownloadOk => modify (with_fs (λ f, {[dst]} ∪ f))
  | DownloadRaises e leaves =>
      modify (with_fs (λ f, if leaves then {[dst]} ∪ f else f ∖ {[dst]})) ;;
      py_raise e
  end.

(** [with zipfile.ZipFile(path, 'r') as zf: zf.namelist()] *)
Definition ZipFile_namelist (path : string) : M (list string) :=
  record (ActOpenZip path) ;;
  match zip_namelist E path with
  | ZipOk l => ret l
  | ZipRaises e => py_raise e
  end.

(** [gdal.VectorTranslateOptions(...)]: the options object, which the
    model identifies with the keyword arguments it was built from, or the
    exception the constructor raises. *)
Definition VectorTranslateOptions (args : translate_options) : M translate_options :=
  match vector_translate_options E args with
  | Some e => py_raise e
  | None => ret args
  end.

(** [gdal.VectorTranslate(dst, src, options=opts)]: it writes [dst] or
    not, raises or not, and touches no other scratch file. *)
Definition VectorTranslate (dst src : string) (opts : translate_options) : M unit :=
  record (ActConvert dst src opts) ;;
  let r := vector_translate E dst src in
  modify (with_fs (λ f, if conv_writes r then {[dst]} ∪ f else f)) ;;
  match conv_raises r with
  | Some e => py_raise e
  | None => ret tt
  end.

(** [bucket.blob(blob_name).upload_from_filename(src)] *)
Definition upload_from_filename
    (bucket_name : option string) (blob_name src : string) : M unit :=
  record (ActUpload bucket_name blob_name src) ;;
  match blob_upload E bucket_name blob_name src with
  | Some e => py_raise e
  | None => modify (with_uploaded (λ l, l ++ [(bucket_name, blob_name)]))
  end.

End Calls.

(** The f-string rendering of an [Optional[str]]. *)
Definition fmt (o : option string) : string :=
  match o with Some s => s | None => "None" end.

End Runtime.

(* ===================================================================== *)
(** ** main.py *)
(* ===================================================================== *)

Module Main.
Import PyStr Runtime.
Open Scope py_scope.

(** The trigger event, [{'bucket': ..., 'name': ...}]. *)
Record event := Event { bucket : string; name : string }.

(** The suffix tests of lines 25, 50, 57 and 64. *)
Definition is_zip_name (f : string) : bool := endswith (lower f) ".zip".
Definition is_gdb_marker (f : string) : bool := endswith (lower f) ".gdb/".
Definition is_shapefile (f : string) : bool := endswith (lower f) ".shp".
Definition is_csv (f : string) : bool := endswith (lower f) ".csv".

(** Line 33. *)
Definition gcs_zip_path (ev : event) : string :=
  "/vsizip//vsigs/" +:+ bucket ev +:+ "/" +:+ name ev.

(** Line 42. *)
Definition local_path (ev : event) : string := "/tmp/" +:+ name ev.

(** Lines 83-84 and 119. *)
Definition output_filename_stem (ev : event) : string := PosixPath.stem (name ev).
Definition temp_output_path (ev : event) : string :=
  "/tmp/" +:+ output_filename_stem ev +:+ ".parquet".
Definition output_blob_name (ev : event) : string :=
  output_filename_stem ev +:+ ".parquet".

(** The keyword arguments of lines 90-103. *)
Definition options : translate_options :=
  TranslateOptions "Parquet"
    ["COMPRESSION=SNAPPY"; "EDGES=PLANAR"; "GEOMETRY_ENCODING=WKB";
     "GEOMETRY_NAME=geometry"; "ROW_GROUP_SIZE=65536"]
    "overwrite" true [("OGR_PARQUET_ALLOW_ALL_DIMS", "YES")].

(** Lines 50-67, the body of the [with] block: one [if] with two [elif]
    arms, both guarded by [not source_data_path]. *)
Definition select_source (gcs : string) (file_list : list string) : M unit :=
  let gdb_path := next_or_None is_gdb_marker file_list in
  if truthy gdb_path then
    modify (with_source_data_path
              (Some (gcs +:+ "/" +:+ PosixPath.parent (fmt gdb_path)))) ;;
    sdp ← gets source_data_path ;
    print ("Found Geodatabase: " +:+ fmt sdp)
  else
    sdp ← gets source_data_path ;
    if negb (truthy sdp) then
      let shp_path := next_or_None is_shapefile file_list in
      if truthy shp_path then
        modify (with_source_data_path (Some (gcs +:+ "/" +:+ fmt shp_path))) ;;
        sdp ← gets source_data_path ;
        print ("Found Shapefile: " +:+ fmt sdp)
      else ret tt
    else
      sdp ← gets source_data_path ;
      if negb (truthy sdp) then
        let csv_path := next_or_None is_csv file_list in
        if truthy csv_path then
          modify (with_source_data_path (Some (gcs +:+ "/" +:+ fmt csv_path))) ;;
          sdp ← gets source_data_path ;
          print ("Found CSV: " +:+ fmt sdp)
        else ret tt
      else ret tt.

(** What the chain above amounts to as a function of the entry list:
    the kind of source it settles on and the path inside the archive
    (see [select_source_located]). *)
Inductive source_kind := Geodatabase | Shapefile | CSV.

Definition kind_label (k : source_kind) : string :=
  match k with
  | Geodatabase => "Geodatabase"
  | Shapefile => "Shapefile"
  | CSV => "CSV"
  end.

Definition located_source (file_list : list string) : option (source_kind * string) :=
  match next_or_None is_gdb_marker file_list with
  | Some g => Some (Geodatabase, PosixPath.parent g)
  | None =>
      match next_or_None is_shapefile file_list with
      | Some f => Some (Shapefile, f)
      | None => None
      end
  end.

Definition found (gcs : string) (k : source_kind) (intra : string) (s : state) : state :=
  with_log (λ l, l ++ ["Found " +:+ kind_label k +:+ ": " +:+ gcs +:+ "/" +:+ intra])
    (with_source_data_path (Some (gcs +:+ "/" +:+ intra)) s).

Section Function.
Variable E : env.

(** Lines 36-76: the [try / except Exception / finally] statement. *)
Definition inspect_zip (ev : event) : M unit :=
  let bucket_name := bucket ev in
  let file_name := name ev in
  modify (with_source_data_path None) ;;
  try_except_finally
    (storage_bucket E (Some bucket_name) ;;
     modify (with_local_zip_path (Some (local_path ev))) ;;
     p ← read_local_zip_path ;
     download_to_filename E bucket_name file_name p ;;
     p ← read_local_zip_path ;
     file_list ← ZipFile_namelist E p ;
     select_source (gcs_zip_path ev) file_list)
    (λ e,
       print ("Error inspecting zip file " +:+ file_name +:+ ": " +:+ exn_str e) ;;
       py_return)
    (p ← read_local_zip_path ;
     there ← os_path_exists p ;
     if there then os_remove p else ret tt).

(** Lines 82-111.  The options object of line 90 is built outside the
    [try] of line 105: an exception from its constructor is not caught. *)
Definition convert (ev : event) : M unit :=
  sdp ← gets source_data_path ;
  print ("Converting " +:+ fmt sdp +:+ " to " +:+ temp_output_path ev +:+ "...") ;;
  opts ← VectorTranslateOptions E options ;
  try_except
    (VectorTranslate E (temp_output_path ev) (fmt sdp) opts ;;
     print "Conversion successful.")
    (λ e,
       print ("Error during GDAL conversion: " +:+ exn_str e) ;;
       py_return).

(** Lines 113-127. *)
Definition publish (ev : event) : M unit :=
  there ← os_path_exists (temp_output_path ev) ;
  if negb there then
    print "Conversion failed, output file not created." ;;
    py_return
  else
    storage_bucket E (OUTPUT_BUCKET_NAME E) ;;
    print ("Uploading " +:+ output_blob_name ev +:+ " to bucket " +:+
           fmt (OUTPUT_BUCKET_NAME E) +:+ "...") ;;
    upload_from_filename E (OUTPUT_BUCKET_NAME E) (output_blob_name ev)
                         (temp_output_path ev) ;;
    print "Upload complete." ;;
    os_remove (temp_output_path ev).

(** Lines 14-127. *)
Definition convert_to_geoparquet (ev : event) : M unit :=
  let bucket_name := bucket ev in
  let file_name := name ev in
  if negb (endswith (lower file_name) ".zip") then
    print ("File " +:+ file_name +:+ " is not a zip file. Skipping.") ;;
    py_return
  else
    print ("Processing file: " +:+ file_name +:+ " from bucket: " +:+
           bucket_name +:+ ".") ;;
    inspect_zip ev ;;
    sdp ← gets source_data_path ;
    if negb (truthy sdp) then
      print ("No convertible data source (GDB, Shapefile, CSV) found in " +:+
             file_name +:+ ".") ;;
      py_return
    else
      convert ev ;;
      publish ev.

(** One invocation over a scratch storage [fs0]: the exception that
    reaches the caller, if any, and the final state. *)
Definition invoke (ev : event) (fs0 : gset string) : option exn * state :=
  match convert_to_geoparquet ev (entry fs0) with
  | (Raised e, s) => (Some e, s)
  | (_, s) => (None, s)
  end.

End Function.

End Main.

(* ===================================================================== *)
(** ** Sample surroundings *)
(* ===================================================================== *)

(** Concrete collaborators used to exercise the function. *)
Module Scenarios.
Import Runtime Main.

(** Every call succeeds; the archive lists [l]; the converter writes its
    output. *)
Definition all_fine (l : list string) : env :=
  Env (Some "out") (λ _, None) (λ _ _ _, DownloadOk) (λ _, ZipOk l)
      (λ _, None) (λ _ _, ConvertResult None true) (λ _ _ _, None).

Definition NotFound : exn := Exn StdException "404 GET: No such object".
Definition BadZipFile : exn := Exn StdException "File is not a zip file".
Definition ServiceUnavailable : exn := Exn StdException "503 POST: backend error".
Definition ValueError : exn :=
  Exn StdException "Bucket names must start and end with a number or letter.".

(** The object cannot be fetched. *)
Definition download_fails : env :=
  Env (Some "out") (λ _, None) (λ _ _ _, DownloadRaises NotFound false)
      (λ _, ZipOk []) (λ _, None) (λ _ _, ConvertResult None true) (λ _ _ _, None).

(** The object is fetched but is not a zip archive. *)
Definition zip_unreadable : env :=
  Env (Some "out") (λ _, None) (λ _ _ _, DownloadOk) (λ _, ZipRaises BadZipFile)
      (λ _, None) (λ _ _, ConvertResult None true) (λ _ _ _, None).

(** The converter returns without having written anything. *)
Definition silent_converter (l : list string) : env :=
  Env (Some "out") (λ _, None) (λ _ _ _, DownloadOk) (λ _, ZipOk l)
      (λ _, None) (λ _ _, ConvertResult None false) (λ _ _ _, None).

(** The destination rejects the upload. *)
Definition upload_fails (l : list string) : env :=
  Env (Some "out") (λ _, None) (λ _ _ _, DownloadOk) (λ _, ZipOk l)
      (λ _, None) (λ _ _, ConvertResult None true) (λ _ _ _, Some ServiceUnavailable).

(** The client refuses the source bucket's name. *)
Definition bad_bucket_name : env :=
  Env (Some "out") (λ _, Some ValueError) (λ _ _ _, DownloadOk) (λ _, ZipOk [])
      (λ _, None) (λ _ _, ConvertResult None true) (λ _ _ _, None).

Definition roads_zip : event := Event "bucket" "roads.zip".
Definition parcels_zip : event := Event "bucket" "parcels_2024.zip".

End Scenarios.

(** A single path component: no [/] occurs in it. *)
Module PathComponent.

Fixpoint slash_free (s : string) : bool :=
  match s with
  | EmptyString => true
  | String c r => negb (Ascii.eqb c "/") && slash_free r
  end.

End PathComponent.

(** Spelling up to letter case, written without reference to [str.lower],
    to be compared with the suffix tests of [Main]. *)
Module CaseInsensitive.

(** The upper-case form of an ASCII character. *)
Definition upper_char (c : ascii) : ascii :=
  let n := nat_of_ascii c in
  if (97 <=? n) && (n <=? 122) then ascii_of_nat (n - 32) else c.

(** [s] spells the lower-case pattern [pat] up to letter case: it has the
    pattern's length, and each of its characters is the pattern's character
    at that place or the upper-case form of it. *)
Fixpoint spells (pat s : string) : bool :=
  match pat, s with
  | EmptyString, EmptyString => true
  | String p pat', String c s' =>
      (Ascii.eqb c p || Ascii.eqb c (upper_char p)) && spells pat' s'
  | _, _ => false
  end.

End CaseInsensitive.

(** Further collaborators. *)
Module MoreScenarios.
Import Runtime Main Scenarios.

Definition GDALError : exn := Exn StdException "Unable to open datasource".
Definition KeyboardInterrupt : exn := Exn SystemExiting "".

(** The converter raises and leaves nothing behind. *)
Definition converter_fails (l : list string) : env :=
  Env (Some "out") (λ _, None) (λ _ _ _, DownloadOk) (λ _, ZipOk l)
      (λ _, None) (λ _ _, ConvertResult (Some GDALError) false) (λ _ _ _, None).

(** The process is interrupted during the download, which leaves a partial
    file. *)
Definition interrupted_download : env :=
  Env (Some "out") (λ _, None) (λ _ _ _, DownloadRaises KeyboardInterrupt true)
      (λ _, ZipOk []) (λ _, None) (λ _ _, ConvertResult None true) (λ _ _ _, None).

Definition TypeError : exn :=
  Exn StdException
    "VectorTranslateOptions() got an unexpected keyword argument 'gdal_config_options'".

(** The GDAL wrapper rejects the keyword arguments of line 90. *)
Definition options_rejected (l : list string) : env :=
  Env (Some "out") (λ _, None) (λ _ _ _, DownloadOk) (λ _, ZipOk l)
      (λ _, Some TypeError) (λ _ _, ConvertResult None true) (λ _ _ _, None).

End MoreScenarios.


(** The locator template of the interface description,
    [<archive-virtual-scheme>//<source-location>/<archive-object-name>/<intra-archive-entry-path>],
    written after the specification's words, to be compared with what
    [Main.select_source] builds. *)
Definition composed_locator (scheme location object intra : string) : string :=
  scheme +:+ "//" +:+ location +:+ "/" +:+ object +:+ "/" +:+ intra.

(* ===================================================================== *)
(** ** Facts about the string and path operations *)
(* ===================================================================== *)

Module PathExamples.
Import PyStr PosixPath.

Example lower_zip : lower "Roads.ZIP" = "roads.zip".
Proof. reflexivity. Qed.

Example endswith_zip : endswith (lower "Roads.ZIP") ".zip" = true.
Proof. reflexivity. Qed.

Example parent_top : parent "parcels_2024.gdb/" = ".".
Proof. reflexivity. Qed.

Example parent_nested : parent "data/parcels_2024.gdb/" = "data".
Proof. reflexivity. Qed.

Example parent_abs : parent "/a.gdb/" = "/".
Proof. reflexivity. Qed.

Example stem_plain : stem "roads.zip" = "roads".
Proof. reflexivity. Qed.

Example stem_dir : stem "in/coming/roads.v2.ZIP" = "roads.v2".
Proof. reflexivity. Qed.

Example stem_hidden : stem ".zip" = ".zip".
Proof. reflexivity. Qed.

End PathExamples.

(** The function on a few concrete uploads. *)
Module RunExamples.
Import PyStr Runtime Main Scenarios MoreScenarios.

(** A geodatabase directory at the top of the archive next to a shapefile:
    the geodatabase arm is taken, and the path handed to the converter is
    the marker's parent directory, here the archive root. *)
Example parcels_gdb_and_shp :
  let r := invoke (all_fine ["parcels_2024.gdb/"; "parcels_2024.shp"]) parcels_zip ∅ in
  r.1 = None ∧
  log r.2 =
    ["Processing file: parcels_2024.zip from bucket: bucket.";
     "Found Geodatabase: /vsizip//vsigs/bucket/parcels_2024.zip/.";
     "Converting /vsizip//vsigs/bucket/parcels_2024.zip/. to /tmp/parcels_2024.parquet...";
     "Conversion successful.";
     "Uploading parcels_2024.parquet to bucket out...";
     "Upload complete."] ∧
  uploaded r.2 = [(Some "out", "parcels_2024.parquet")] ∧
  fs r.2 = ∅.
Proof. repeat split; reflexivity. Qed.

(** Only a shapefile. *)
Example roads_shp :
  let r := invoke (all_fine ["roads.shp"; "roads.dbf"]) roads_zip ∅ in
  r.1 = None ∧
  acts r.2 =
    [ActDownload "bucket" "roads.zip" "/tmp/roads.zip";
     ActOpenZip "/tmp/roads.zip";
     ActRemove "/tmp/roads.zip";
     ActConvert "/tmp/roads.parquet" "/vsizip//vsigs/bucket/roads.zip/roads.shp" options;
     ActUpload (Some "out") "roads.parquet" "/tmp/roads.parquet";
     ActRemove "/tmp/roads.parquet"] ∧
  uploaded r.2 = [(Some "out", "roads.parquet")].
Proof. repeat split; reflexivity. Qed.

(** Only an unrelated text file. *)
Example empty_zip :
  let r := invoke (all_fine ["readme.txt"]) (Event "bucket" "empty.zip") ∅ in
  r.1 = None ∧
  last (log r.2) =
    Some "No convertible data source (GDB, Shapefile, CSV) found in empty.zip." ∧
  uploaded r.2 = [].
Proof. repeat split; reflexivity. Qed.

(** The object has vanished before the download. *)
Example object_not_found :
  let r := invoke download_fails roads_zip ∅ in
  r.1 = None ∧
  log r.2 =
    ["Processing file: roads.zip from bucket: bucket.";
     "Error inspecting zip file roads.zip: 404 GET: No such object"] ∧
  acts r.2 = [ActDownload "bucket" "roads.zip" "/tmp/roads.zip"].
Proof. repeat split; reflexivity. Qed.

(** The client rejects the bucket name before [local_zip_path] is bound. *)
Example bucket_name_rejected :
  let r := invoke bad_bucket_name (Event "-bucket" "roads.zip") ∅ in
  r.1 = Some (UnboundLocalError "local_zip_path") ∧
  acts r.2 = [].
Proof. repeat split; reflexivity. Qed.

(** The GDAL wrapper rejects the keyword arguments of line 90. *)
Example options_rejected_run :
  let r := invoke (options_rejected ["roads.shp"]) roads_zip ∅ in
  r.1 = Some TypeError ∧
  log r.2 =
    ["Processing file: roads.zip from bucket: bucket.";
     "Found Shapefile: /vsizip//vsigs/bucket/roads.zip/roads.shp";
     "Converting /vsizip//vsigs/bucket/roads.zip/roads.shp to /tmp/roads.parquet..."] ∧
  acts r.2 =
    [ActDownload "bucket" "roads.zip" "/tmp/roads.zip";
     ActOpenZip "/tmp/roads.zip";
     ActRemove "/tmp/roads.zip"] ∧
  uploaded r.2 = [].
Proof. repeat split; reflexivity. Qed.

End RunExamples.

Module PyStrFacts.
Import PyStr.

Lemma append_cons (c : ascii) (a b : string) :
  String c a +:+ b = String c (a +:+ b).
Proof. reflexivity. Qed.

Lemma append_nil (b : string) : "" +:+ b = b.
Proof. reflexivity. Qed.

Lemma append_assoc (a b c : string) : (a +:+ b) +:+ c = a +:+ b +:+ c.
Proof.
  induction a as [|x a IH]; [done |].
  rewrite !append_cons. by f_equal.
Qed.

(** [endswith] is "has this suffix". *)
Lemma endswith_true (s suf : string) :
  endswith s suf = true ↔ ∃ p, s = p +:+ suf.
Proof.
  split.
  - induction s as [|c s IH]; cbn.
    + rewrite orb_false_r. destruct suf; [| done]. by exists "".
    + intros [Heq | H]%orb_true_iff.
      * exists "". rewrite append_nil.
        by apply (proj1 (String.eqb_eq (String c s) suf)).
      * destruct (IH H) as [p ->]. by exists (String c p).
  - intros [p ->]. induction p as [|c p IH].
    + rewrite append_nil. destruct suf; cbn; [done |].
      by rewrite Ascii.eqb_refl, String.eqb_refl.
    + rewrite append_cons. cbn. rewrite IH. apply orb_true_r.
Qed.

Lemma last_char_app (p suf : string) :
  suf ≠ "" → last_char (p +:+ suf) = last_char suf.
Proof.
  intros Hne. induction p as [|c p IH]; [done |].
  rewrite append_cons. cbn. destruct (p +:+ suf) eqn:Heq; [| done].
  destruct p; [by rewrite append_nil in Heq | by rewrite append_cons in Heq].
Qed.

Lemma last_char_lower (s : string) :
  last_char (lower s) = lower_char <$> last_char s.
Proof.
  induction s as [|c s IH]; [done |].
  cbn. destruct s; [done |]. exact IH.
Qed.

(** A string with a non-empty suffix ends in that suffix's last character. *)
Lemma endswith_last_char (s suf : string) :
  suf ≠ "" → endswith s suf = true → last_char s = last_char suf.
Proof.
  intros Hne [p ->]%endswith_true. by apply last_char_app.
Qed.

Lemma endswith_lower_nonempty (s suf : string) :
  suf ≠ "" → endswith (lower s) suf = true → s ≠ "".
Proof.
  intros Hne H ->. cbn in H. rewrite orb_false_r in H.
  destruct suf; [done | discriminate].
Qed.

Lemma truthy_Some (s : string) : s ≠ "" → truthy (Some s) = true.
Proof. intros H. cbn. by destruct (String.eqb_spec s ""). Qed.

(** [next(...)] finds something exactly when some entry passes the test. *)
Lemma next_or_None_existsb (p : string → bool) (l : list string) :
  existsb p l = true → ∃ x, next_or_None p l = Some x ∧ In x l ∧ p x = true.
Proof.
  intros [y [Hy Hp]]%existsb_exists.
  unfold next_or_None. destruct (List.find p l) as [x|] eqn:Hf.
  - exists x. split; [done |]. by apply find_some in Hf.
  - by rewrite (find_none _ _ Hf y Hy) in Hp.
Qed.

Lemma next_or_None_absent (p : string → bool) (l : list string) :
  existsb p l = false → next_or_None p l = None.
Proof.
  intros H. unfold next_or_None. destruct (List.find p l) as [x|] eqn:Hf; [| done].
  apply find_some in Hf as [Hin Hp].
  assert (existsb p l = true) by (apply existsb_exists; eauto). congruence.
Qed.

Lemma next_or_None_Some (p : string → bool) (l : list string) (x : string) :
  next_or_None p l = Some x → In x l ∧ p x = true.
Proof. apply find_some. Qed.

End PyStrFacts.

(* ===================================================================== *)
(** ** Facts about the function's names and its source selection *)
(* ===================================================================== *)

Module MainFacts.
Import PyStr PyStrFacts Runtime Main.

(** The downloaded copy and the produced file never share a path: one
    ends in [p] or [P], the other in [t]. *)
Lemma local_path_ne_output (ev : event) :
  is_zip_name (name ev) = true → local_path ev ≠ temp_output_path ev.
Proof.
  intros Hz Heq.
  assert (Hn : name ev ≠ "") by (by eapply endswith_lower_nonempty; [| exact Hz]).
  assert (H1 : last_char (local_path ev) = last_char (name ev))
    by (by apply last_char_app).
  assert (H2 : last_char (temp_output_path ev) = Some "t"%char).
  { unfold temp_output_path. rewrite <- append_assoc. by rewrite last_char_app. }
  assert (H3 : lower_char <$> last_char (name ev) = Some "p"%char).
  { rewrite <- last_char_lower. by apply (endswith_last_char _ ".zip"). }
  rewrite <- H1, Heq, H2 in H3. discriminate.
Qed.

Lemma gdb_marker_nonempty (g : string) : is_gdb_marker g = true → g ≠ "".
Proof. by apply endswith_lower_nonempty. Qed.

Lemma shapefile_nonempty (f : string) : is_shapefile f = true → f ≠ "".
Proof. by apply endswith_lower_nonempty. Qed.

(** A composed source path is never the empty string. *)
Lemma truthy_source (ev : event) (intra : string) :
  truthy (Some (gcs_zip_path ev +:+ "/" +:+ intra)) = true.
Proof. reflexivity. Qed.

(** The [if / elif / elif] chain computes [located_source].  Its third arm
    repeats the guard of the second, so it is never entered: the CSV test
    of line 64 has no influence on the result. *)
Lemma select_source_located (gcs : string) (l : list string) (s : state) :
  source_data_path s = None →
  select_source gcs l s =
    (Normal tt,
     match located_source l with
     | Some (k, intra) => found gcs k intra s
     | None => s
     end).
Proof.
  intros Hs. unfold select_source, located_source.
  destruct (next_or_None is_gdb_marker l) as [g|] eqn:Hg.
  - apply next_or_None_Some in Hg as [_ Hg%gdb_marker_nonempty].
    by rewrite (truthy_Some g Hg).
  - cbn [truthy]. unfold bind at 1, gets at 1. rewrite Hs. cbn [truthy negb].
    destruct (next_or_None is_shapefile l) as [f|] eqn:Hf; [| done].
    apply next_or_None_Some in Hf as [_ Hf%shapefile_nonempty].
    by rewrite (truthy_Some f Hf).
Qed.

Lemma located_source_never_csv (l : list string) (intra : string) :
  located_source l ≠ Some (CSV, intra).
Proof.
  unfold located_source.
  destruct (next_or_None is_gdb_marker l); [done |].
  by destruct (next_or_None is_shapefile l).
Qed.

Lemma located_source_none (l : list string) :
  existsb is_gdb_marker l = false → existsb is_shapefile l = false →
  located_source l = None.
Proof.
  intros Hg Hs. unfold located_source.
  by rewrite (next_or_None_absent _ _ Hg), (next_or_None_absent _ _ Hs).
Qed.

(** Whatever is selected comes from an entry of the archive. *)
Lemma located_source_inv (l : list string) (k : source_kind) (intra : string) :
  located_source l = Some (k, intra) →
  ∃ entry, In entry l ∧
    ((k = Geodatabase ∧ is_gdb_marker entry = true ∧
      next_or_None is_gdb_marker l = Some entry ∧
      intra = PosixPath.parent entry)
     ∨ (k = Shapefile ∧ is_shapefile entry = true ∧
        next_or_None is_gdb_marker l = None ∧
        next_or_None is_shapefile l = Some entry ∧
        intra = entry)).
Proof.
  unfold located_source.
  destruct (next_or_None is_gdb_marker l) as [g|] eqn:Hg.
  - intros [= <- <-]. destruct (next_or_None_Some _ _ _ Hg) as [Hin Hp].
    exists g. split; [done |]. by left.
  - destruct (next_or_None is_shapefile l) as [f|] eqn:Hf; [| done].
    intros [= <- <-]. destruct (next_or_None_Some _ _ _ Hf) as [Hin Hp].
    exists f. split; [done |]. by right.
Qed.

(** With a geodatabase marker in the list the first arm is taken, whatever
    else the list holds and whatever the state. *)
Lemma select_source_gdb (gcs : string) (l : list string) (g : string) (s : state) :
  next_or_None is_gdb_marker l = Some g →
  select_source gcs l s = (Normal tt, found gcs Geodatabase (PosixPath.parent g) s).
Proof.
  intros Hg. unfold select_source. rewrite Hg.
  apply next_or_None_Some in Hg as [_ Hg%gdb_marker_nonempty].
  by rewrite (truthy_Some g Hg).
Qed.

(** The path handed to the converter has the shape of the interface
    description. *)
Lemma gcs_zip_path_composed (ev : event) (intra : string) :
  gcs_zip_path ev +:+ "/" +:+ intra =
  composed_locator "/vsizip" ("vsigs/" +:+ bucket ev) (name ev) intra.
Proof.
  unfold gcs_zip_path, composed_locator. by rewrite !append_assoc.
Qed.

End MainFacts.

(* ===================================================================== *)
(** ** Symbolic execution of one invocation *)
(* ===================================================================== *)

#[local] Set Warnings "-clear-no-such-hyp".

Module Exec.
Import PyStr PyStrFacts Runtime Main MainFacts.

Ltac unfold_run H :=
  unfold invoke, convert_to_geoparquet, inspect_zip, convert, publish,
    try_except, try_except_finally, storage_bucket, download_to_filename,
    ZipFile_namelist, VectorTranslateOptions, VectorTranslate,
    upload_from_filename, os_remove,
    os_path_exists, read_local_zip_path, print, record, modify, gets, bind,
    ret, py_return, py_raise, entry, found in H.

Ltac red_state H :=
  cbn [fst snd with_fs with_log with_acts with_uploaded with_source_data_path
       with_local_zip_path fs log acts uploaded source_data_path local_zip_path
       negb fmt] in H.

(** Case split on the innermost undecided test of [H]; a membership test
    in scratch storage is split on the membership itself. *)
Ltac split_on H :=
  match type of H with
  | context [match ?x with _ => _ end] =>
      lazymatch x with
      | context [match _ with _ => _ end] => fail
      | context [bool_decide (?p ∈ {[?p]} ∪ ?X)] =>
          rewrite (bool_decide_eq_true_2 (p ∈ {[p]} ∪ X)) in H by set_solver
      | context [bool_decide ?P] =>
          destruct (decide P);
          [rewrite (bool_decide_eq_true_2 P) in H by assumption
          |rewrite (bool_decide_eq_false_2 P) in H by assumption]
      | _ => destruct x eqn:?
      end
  end.

Ltac exec H :=
  unfold_run H;
  repeat (red_state H;
          first [ rewrite select_source_located in H by reflexivity;
                  unfold found in H
                | rewrite truthy_source in H
                | split_on H ]);
  red_state H.

Ltac observe :=
  cbn [fst snd fs log acts uploaded source_data_path local_zip_path
       with_fs with_log with_acts with_uploaded with_source_data_path
       with_local_zip_path
       attempted attempts existsb List.filter app length orb last take
       is_download is_open_zip is_convert is_upload is_remove_of] in *.

(** Run [invoke E ev fs0] through every path it can take. *)
Ltac run E ev fs0 :=
  let r := fresh "r" in
  let s := fresh "s" in
  let Hrun := fresh "Hrun" in
  destruct (invoke E ev fs0) as [r s] eqn:Hrun;
  exec Hrun; simplify_eq; observe.

(** Membership of a call in an explicit list of calls. *)
Ltac inv_elem H :=
  repeat match type of H with
         | _ ∈ [] => by apply elem_of_nil in H
         | _ ∈ _ :: _ =>
             apply elem_of_cons in H as [H | H]; [try discriminate H |]
         end.

(** Past the extension test the two scratch paths differ. *)
Ltac paths_differ :=
  match goal with
  | H : negb (endswith _ _) = false |- _ =>
      apply negb_false_iff, local_path_ne_output in H
  end.

End Exec.

(* ===================================================================== *)
(** ** Properties of an invocation *)
(* ===================================================================== *)

Module Properties.
Import PyStr PyStrFacts Runtime Main MainFacts Exec Scenarios.

(** C6.  An object whose name does not end in [.zip] (in any letter case, the
    test of line 25) is skipped: the invocation returns at once, its only
    trace is the skip message, scratch storage is untouched, and nothing
    is downloaded, converted or uploaded. *)
Theorem non_archive_is_skipped (E : env) (ev : event) (fs0 : gset string) :
  is_zip_name (name ev) = false →
  invoke E ev fs0 =
    (None,
     State fs0 ["File " +:+ name ev +:+ " is not a zip file. Skipping."]
           [] [] None None).
Proof.
  intros Hz. unfold invoke, convert_to_geoparquet.
  unfold is_zip_name in Hz. by rewrite Hz.
Qed.

Lemma non_archive_is_skipped_witness :
  is_zip_name "notes.txt" = false ∧
  invoke (all_fine ["roads.shp"]) (Event "bucket" "notes.txt") {["/tmp/keep"]} =
    (None,
     State {["/tmp/keep"]} ["File notes.txt is not a zip file. Skipping."]
           [] [] None None).
Proof.
  split; [reflexivity |].
  apply (non_archive_is_skipped (all_fine ["roads.shp"])
           (Event "bucket" "notes.txt") {["/tmp/keep"]}).
  reflexivity.
Defined.

(** C4.  Once the download has been attempted, the local copy of the
    archive is gone from scratch storage when the invocation ends, however
    it ends: normally, by an early return, or with an exception. *)
Theorem archive_copy_removed (E : env) (ev : event) (fs0 : gset string) :
  attempted is_download (invoke E ev fs0).2 = true →
  local_path ev ∉ fs (invoke E ev fs0).2.
Proof.
  run E ev fs0; try discriminate; intros _; paths_differ; set_solver.
Qed.

Lemma archive_copy_removed_witness :
  attempted is_download
    (invoke zip_unreadable (Event "bucket" "roads.zip") {["/tmp/roads.zip"]}).2 = true ∧
  local_path (Event "bucket" "roads.zip") ∉
    fs (invoke zip_unreadable (Event "bucket" "roads.zip") {["/tmp/roads.zip"]}).2.
Proof.
  split; [reflexivity |].
  apply (archive_copy_removed zip_unreadable
           (Event "bucket" "roads.zip") {["/tmp/roads.zip"]}).
  reflexivity.
Defined.

(** C3.  When the download call, or opening and listing the downloaded
    archive, raises an error [e] (an instance of [Exception]), the error is
    caught: the invocation returns normally, its log ends with the
    "Error inspecting zip file" line that carries [e]'s text, the converter
    and the upload are never reached, and scratch storage is what it was
    before, minus the local copy of the archive. *)
Theorem inspection_error_is_contained
    (E : env) (ev : event) (fs0 : gset string) (e : exn) (leaves : bool) :
  is_Exception e = true →
  (attempted is_download (invoke E ev fs0).2 = true ∧
   blob_download E (bucket ev) (name ev) (local_path ev) = DownloadRaises e leaves)
  ∨ (attempted is_open_zip (invoke E ev fs0).2 = true ∧
     zip_namelist E (local_path ev) = ZipRaises e) →
  (invoke E ev fs0).1 = None ∧
  log (invoke E ev fs0).2 =
    ["Processing file: " +:+ name ev +:+ " from bucket: " +:+ bucket ev +:+ ".";
     "Error inspecting zip file " +:+ name ev +:+ ": " +:+ exn_str e] ∧
  attempted is_convert (invoke E ev fs0).2 = false ∧
  attempted is_upload (invoke E ev fs0).2 = false ∧
  uploaded (invoke E ev fs0).2 = [] ∧
  fs (invoke E ev fs0).2 = fs0 ∖ {[local_path ev]}.
Proof.
  intros He.
  run E ev fs0; intros [[Ha Ho] | [Ha Ho]];
    try discriminate; simplify_eq; try congruence;
    repeat split; try done; set_solver.
Qed.

Lemma inspection_error_is_contained_witness :
  is_Exception BadZipFile = true ∧
  attempted is_open_zip (invoke zip_unreadable roads_zip ∅).2 = true ∧
  zip_namelist zip_unreadable (local_path roads_zip) = ZipRaises BadZipFile ∧
  (invoke zip_unreadable roads_zip ∅).1 = None ∧
  log (invoke zip_unreadable roads_zip ∅).2 =
    ["Processing file: roads.zip from bucket: bucket.";
     "Error inspecting zip file roads.zip: File is not a zip file"].
Proof.
  do 3 (split; [reflexivity |]).
  destruct (inspection_error_is_contained zip_unreadable roads_zip ∅
              BadZipFile false) as (H1 & H2 & _).
  - reflexivity.
  - right. split; reflexivity.
  - split; [exact H1 | exact H2].
Defined.

(** Without a geodatabase marker and without a shapefile nothing is
    selected, whether or not the archive holds CSV entries: the invocation
    logs that it found no source and stops before the converter. *)
Lemma nothing_selected_without_gdb_or_shp
    (E : env) (ev : event) (fs0 : gset string) (l : list string) :
  attempted is_open_zip (invoke E ev fs0).2 = true →
  zip_namelist E (local_path ev) = ZipOk l →
  located_source l = None →
  (invoke E ev fs0).1 = None ∧
  log (invoke E ev fs0).2 =
    ["Processing file: " +:+ name ev +:+ " from bucket: " +:+ bucket ev +:+ ".";
     "No convertible data source (GDB, Shapefile, CSV) found in " +:+
     name ev +:+ "."] ∧
  attempted is_convert (invoke E ev fs0).2 = false ∧
  attempted is_upload (invoke E ev fs0).2 = false ∧
  uploaded (invoke E ev fs0).2 = [].
Proof.
  run E ev fs0; intros Ha Ho Hl; try discriminate; simplify_eq; done.
Qed.

(** C9.  An archive that was fetched and listed, and that holds no
    geodatabase marker, no shapefile and no CSV entry, makes the invocation
    log "No convertible data source ... found" and return; the converter is
    not invoked and nothing is uploaded. *)
Theorem no_source_found
    (E : env) (ev : event) (fs0 : gset string) (l : list string) :
  attempted is_open_zip (invoke E ev fs0).2 = true →
  zip_namelist E (local_path ev) = ZipOk l →
  existsb is_gdb_marker l = false →
  existsb is_shapefile l = false →
  existsb is_csv l = false →
  (invoke E ev fs0).1 = None ∧
  log (invoke E ev fs0).2 =
    ["Processing file: " +:+ name ev +:+ " from bucket: " +:+ bucket ev +:+ ".";
     "No convertible data source (GDB, Shapefile, CSV) found in " +:+
     name ev +:+ "."] ∧
  attempted is_convert (invoke E ev fs0).2 = false ∧
  attempted is_upload (invoke E ev fs0).2 = false ∧
  uploaded (invoke E ev fs0).2 = [].
Proof.
  intros Ha Ho Hg Hs _.
  apply (nothing_selected_without_gdb_or_shp E ev fs0 l Ha Ho).
  by apply located_source_none.
Qed.

Lemma no_source_found_witness :
  log (invoke (all_fine ["readme.txt"]) (Event "bucket" "empty.zip") ∅).2 =
    ["Processing file: empty.zip from bucket: bucket.";
     "No convertible data source (GDB, Shapefile, CSV) found in empty.zip."] ∧
  attempted is_convert
    (invoke (all_fine ["readme.txt"]) (Event "bucket" "empty.zip") ∅).2 = false.
Proof.
  pose proof (no_source_found (all_fine ["readme.txt"])
                (Event "bucket" "empty.zip") ∅ ["readme.txt"]) as H.
  destruct H as (_ & H2 & H3 & _); try reflexivity.
  split; [exact H2 | exact H3].
Defined.

(** C1.  The archive [roads.zip] that holds only [roads.csv], with every
    collaborator working: the CSV entry is there, yet the invocation ends
    with "No convertible data source", the converter is never called and
    no [roads.parquet] is uploaded. *)
Theorem csv_only_archive_is_not_converted :
  existsb is_gdb_marker ["roads.csv"] = false ∧
  existsb is_shapefile ["roads.csv"] = false ∧
  existsb is_csv ["roads.csv"] = true ∧
  invoke (all_fine ["roads.csv"]) roads_zip ∅ =
    (None,
     State ∅
       ["Processing file: roads.zip from bucket: bucket.";
        "No convertible data source (GDB, Shapefile, CSV) found in roads.zip."]
       [ActDownload "bucket" "roads.zip" "/tmp/roads.zip";
        ActOpenZip "/tmp/roads.zip";
        ActRemove "/tmp/roads.zip"]
       [] None (Some "/tmp/roads.zip")).
Proof. repeat split; reflexivity. Qed.

(** C2.  When the listed archive holds a geodatabase marker, the first such
    marker [g] decides: the source path is built from it (its parent
    directory under the archive's virtual path), the log goes straight from
    "Processing" to "Found Geodatabase" to "Converting", any call of the
    converter is on that path (and there is one as soon as the options
    object of line 90 is built), and the selection is the same for every
    other entry list whose first marker is [g], so shapefile and CSV entries
    play no part. *)
Theorem geodatabase_has_priority
    (E : env) (ev : event) (fs0 : gset string) (l : list string) :
  attempted is_open_zip (invoke E ev fs0).2 = true →
  zip_namelist E (local_path ev) = ZipOk l →
  existsb is_gdb_marker l = true →
  ∃ g, next_or_None is_gdb_marker l = Some g ∧ In g l ∧ is_gdb_marker g = true ∧
    source_data_path (invoke E ev fs0).2 =
      Some (gcs_zip_path ev +:+ "/" +:+ PosixPath.parent g) ∧
    take 3 (log (invoke E ev fs0).2) =
      ["Processing file: " +:+ name ev +:+ " from bucket: " +:+ bucket ev +:+ ".";
       "Found Geodatabase: " +:+ gcs_zip_path ev +:+ "/" +:+ PosixPath.parent g;
       "Converting " +:+ (gcs_zip_path ev +:+ "/" +:+ PosixPath.parent g) +:+
       " to " +:+ temp_output_path ev +:+ "..."] ∧
    (vector_translate_options E options = None →
     attempted is_convert (invoke E ev fs0).2 = true) ∧
    (∀ dst src opts, ActConvert dst src opts ∈ acts (invoke E ev fs0).2 →
       src = gcs_zip_path ev +:+ "/" +:+ PosixPath.parent g) ∧
    (∀ l' st, next_or_None is_gdb_marker l' = Some g →
       select_source (gcs_zip_path ev) l' st = select_source (gcs_zip_path ev) l st).
Proof.
  intros Ha Ho (g & Hg & Hin & Hp)%next_or_None_existsb.
  exists g. split; [done |]. split; [done |]. split; [done |].
  assert (Hl : located_source l = Some (Geodatabase, PosixPath.parent g))
    by (unfold located_source; by rewrite Hg).
  assert (Hsel : ∀ l' st, next_or_None is_gdb_marker l' = Some g →
            select_source (gcs_zip_path ev) l' st = select_source (gcs_zip_path ev) l st).
  { intros l' st Hg'. by rewrite (select_source_gdb _ _ _ _ Hg'), (select_source_gdb _ _ _ _ Hg). }
  revert Ha Ho.
  run E ev fs0; intros Ha Ho; try discriminate; simplify_eq;
    (split; [done |]); (split; [done |]); (split; [intros; congruence |]);
    (split; [| done]); intros dst src opts Hc; inv_elem Hc; congruence.
Qed.

Lemma geodatabase_has_priority_witness :
  existsb is_gdb_marker ["parcels_2024.shp"; "data/parcels_2024.gdb/"; "x.csv"] = true ∧
  ∃ g, next_or_None is_gdb_marker
         ["parcels_2024.shp"; "data/parcels_2024.gdb/"; "x.csv"] = Some g ∧
       source_data_path
         (invoke (all_fine ["parcels_2024.shp"; "data/parcels_2024.gdb/"; "x.csv"])
                 parcels_zip ∅).2 =
         Some (gcs_zip_path parcels_zip +:+ "/" +:+ PosixPath.parent g).
Proof.
  split; [reflexivity |].
  destruct (geodatabase_has_priority
              (all_fine ["parcels_2024.shp"; "data/parcels_2024.gdb/"; "x.csv"])
              parcels_zip ∅ ["parcels_2024.shp"; "data/parcels_2024.gdb/"; "x.csv"])
    as (g & Hg & _ & _ & Hs & _); try reflexivity.
  exists g. split; [exact Hg | exact Hs].
Defined.

(** C5.  Every source path the converter receives is
    [/vsizip] [//] [vsigs/<bucket>] [/] [<object name>] [/] [<intra-archive path>],
    where the intra-archive path comes from an entry of the listed archive:
    the parent directory of the first geodatabase marker, or else the first
    shapefile entry as it is named.  (A CSV entry is never the selected
    one, so its part of the rule has no instance.) *)
Theorem source_path_is_composed
    (E : env) (ev : event) (fs0 : gset string)
    (dst src : string) (opts : translate_options) :
  ActConvert dst src opts ∈ acts (invoke E ev fs0).2 →
  ∃ l entry,
    zip_namelist E (local_path ev) = ZipOk l ∧ In entry l ∧
    ((is_gdb_marker entry = true ∧
      next_or_None is_gdb_marker l = Some entry ∧
      src = composed_locator "/vsizip" ("vsigs/" +:+ bucket ev) (name ev)
              (PosixPath.parent entry))
     ∨ (is_shapefile entry = true ∧
        next_or_None is_gdb_marker l = None ∧
        next_or_None is_shapefile l = Some entry ∧
        src = composed_locator "/vsizip" ("vsigs/" +:+ bucket ev) (name ev) entry)).
Proof.
  run E ev fs0; intros Hin; inv_elem Hin; simplify_eq;
    match goal with
    | Hl : located_source ?l = Some (?k, ?intra) |- _ =>
        destruct (located_source_inv _ _ _ Hl) as (entry & Hentry & Hcase);
        exists l, entry; split; [done |]; split; [done |];
        rewrite gcs_zip_path_composed;
        destruct Hcase as [(-> & ? & ? & ->) | (-> & ? & ? & ? & ->)];
        [left | right]; done
    end.
Qed.

Lemma source_path_is_composed_witness :
  ∃ l entry,
    zip_namelist (all_fine ["a/roads.SHP"; "roads.csv"]) (local_path roads_zip) = ZipOk l ∧
    In entry l ∧
    ((is_gdb_marker entry = true ∧
      next_or_None is_gdb_marker l = Some entry ∧
      "/vsizip//vsigs/bucket/roads.zip/a/roads.SHP" =
        composed_locator "/vsizip" ("vsigs/" +:+ bucket roads_zip) (name roads_zip)
          (PosixPath.parent entry))
     ∨ (is_shapefile entry = true ∧
        next_or_None is_gdb_marker l = None ∧
        next_or_None is_shapefile l = Some entry ∧
        "/vsizip//vsigs/bucket/roads.zip/a/roads.SHP" =
          composed_locator "/vsizip" ("vsigs/" +:+ bucket roads_zip) (name roads_zip)
            entry)).
Proof.
  apply (source_path_is_composed (all_fine ["a/roads.SHP"; "roads.csv"]) roads_zip ∅
           "/tmp/roads.parquet" "/vsizip//vsigs/bucket/roads.zip/a/roads.SHP" options).
  vm_compute. do 3 right. left.
Defined.

(** Lines 114-116 on their own: from any state in which the output file is
    missing, the last phase logs the failure and returns, and changes
    nothing else. *)
Lemma publish_without_output (E : env) (ev : event) (s : state) :
  temp_output_path ev ∉ fs s →
  publish E ev s =
    (Returned,
     with_log (λ l, l ++ ["Conversion failed, output file not created."]) s).
Proof.
  intros Hmiss. unfold publish, bind, os_path_exists, gets.
  by rewrite (bool_decide_eq_false_2 _ Hmiss).
Qed.

(** C7.  The converter was called and did not write its output, the output
    path was not on scratch storage beforehand, and the call either returned
    or raised an error: the file does not exist after the conversion step.
    Then the invocation logs a conversion-failure line as its last message
    ("Conversion failed, output file not created." at the check of line 114
    when the call returned, "Error during GDAL conversion" when it raised),
    returns, and attempts no upload. *)
Theorem missing_output_stops_before_upload
    (E : env) (ev : event) (fs0 : gset string)
    (dst src : string) (opts : translate_options) :
  ActConvert dst src opts ∈ acts (invoke E ev fs0).2 →
  conv_writes (vector_translate E dst src) = false →
  temp_output_path ev ∉ fs0 →
  (∀ e, conv_raises (vector_translate E dst src) = Some e → is_Exception e = true) →
  (invoke E ev fs0).1 = None ∧
  last (log (invoke E ev fs0).2) =
    Some (match conv_raises (vector_translate E dst src) with
          | None => "Conversion failed, output file not created."
          | Some e => "Error during GDAL conversion: " +:+ exn_str e
          end) ∧
  (temp_output_path ev ∉ fs (invoke E ev fs0).2) ∧
  attempted is_upload (invoke E ev fs0).2 = false ∧
  uploaded (invoke E ev fs0).2 = [].
Proof.
  run E ev fs0; intros Hin Hw Hfresh Hexc; inv_elem Hin; simplify_eq;
    try congruence;
    try match goal with
        | H : conv_raises _ = Some ?e, H' : is_Exception ?e = false |- _ =>
            rewrite (Hexc e H) in H'; discriminate H'
        end;
    try (exfalso; set_solver);
    match goal with
    | H : conv_raises _ = _ |- _ => rewrite H
    end;
    repeat split; try done; set_solver.
Qed.

Lemma missing_output_stops_before_upload_witness :
  (invoke (silent_converter ["roads.shp"]) roads_zip ∅).1 = None ∧
  last (log (invoke (silent_converter ["roads.shp"]) roads_zip ∅).2) =
    Some "Conversion failed, output file not created." ∧
  attempted is_upload (invoke (silent_converter ["roads.shp"]) roads_zip ∅).2 = false.
Proof.
  destruct (missing_output_stops_before_upload
              (silent_converter ["roads.shp"]) roads_zip ∅
              "/tmp/roads.parquet" "/vsizip//vsigs/bucket/roads.zip/roads.shp"
              options)
    as (H1 & H2 & _ & H4 & _).
  - vm_compute. do 3 right. left.
  - reflexivity.
  - vm_compute. discriminate.
  - intros e He. vm_compute in He. discriminate He.
  - split; [exact H1 |]. split; [exact H2 | exact H4].
Defined.

(** C8.  When the upload is reached and raises [e], whatever [e] is, that
    exception leaves the function: nothing in the function catches it, the
    upload is attempted exactly once, nothing is recorded as uploaded, and
    the log stops at the "Uploading" line. *)
Theorem upload_error_propagates
    (E : env) (ev : event) (fs0 : gset string) (e : exn) :
  attempted is_upload (invoke E ev fs0).2 = true →
  blob_upload E (OUTPUT_BUCKET_NAME E) (output_blob_name ev)
              (temp_output_path ev) = Some e →
  (invoke E ev fs0).1 = Some e ∧
  attempts is_upload (invoke E ev fs0).2 = 1 ∧
  uploaded (invoke E ev fs0).2 = [] ∧
  last (log (invoke E ev fs0).2) =
    Some ("Uploading " +:+ output_blob_name ev +:+ " to bucket " +:+
          fmt (OUTPUT_BUCKET_NAME E) +:+ "...").
Proof.
  run E ev fs0; intros Ha Hup; try discriminate; simplify_eq; done.
Qed.

Lemma upload_error_propagates_witness :
  attempted is_upload (invoke (upload_fails ["roads.shp"]) roads_zip ∅).2 = true ∧
  (invoke (upload_fails ["roads.shp"]) roads_zip ∅).1 = Some ServiceUnavailable ∧
  attempts is_upload (invoke (upload_fails ["roads.shp"]) roads_zip ∅).2 = 1.
Proof.
  split; [reflexivity |].
  destruct (upload_error_propagates (upload_fails ["roads.shp"]) roads_zip ∅
              ServiceUnavailable) as (H1 & H2 & _); try reflexivity.
  split; [exact H1 | exact H2].
Defined.

(** C10.  When the upload is reached and raises, the produced file is
    still on scratch storage at the end and no removal of it was attempted:
    line 127 is not reached. *)
Theorem output_kept_when_upload_fails
    (E : env) (ev : event) (fs0 : gset string) (e : exn) :
  attempted is_upload (invoke E ev fs0).2 = true →
  blob_upload E (OUTPUT_BUCKET_NAME E) (output_blob_name ev)
              (temp_output_path ev) = Some e →
  temp_output_path ev ∈ fs (invoke E ev fs0).2 ∧
  attempted (is_remove_of (temp_output_path ev)) (invoke E ev fs0).2 = false.
Proof.
  run E ev fs0; intros Ha Hup; try discriminate; simplify_eq;
    paths_differ;
    (split; [set_solver |]);
    rewrite orb_false_r; by apply String.eqb_neq.
Qed.

Lemma output_kept_when_upload_fails_witness :
  attempted is_upload (invoke (upload_fails ["roads.shp"]) roads_zip ∅).2 = true ∧
  temp_output_path roads_zip ∈ fs (invoke (upload_fails ["roads.shp"]) roads_zip ∅).2.
Proof.
  split; [reflexivity |].
  apply (output_kept_when_upload_fails (upload_fails ["roads.shp"]) roads_zip ∅
           ServiceUnavailable); reflexivity.
Defined.

(** X12.  The produced file is removed only after the upload went through:
    whenever a removal of the output path was made, the upload had
    succeeded, the object is recorded as uploaded and the invocation
    returned normally. *)
Lemma output_removed_only_after_upload
    (E : env) (ev : event) (fs0 : gset string) :
  attempted (is_remove_of (temp_output_path ev)) (invoke E ev fs0).2 = true →
  blob_upload E (OUTPUT_BUCKET_NAME E) (output_blob_name ev)
              (temp_output_path ev) = None ∧
  uploaded (invoke E ev fs0).2 = [(OUTPUT_BUCKET_NAME E, output_blob_name ev)] ∧
  (invoke E ev fs0).1 = None.
Proof.
  run E ev fs0; intros Ha; try discriminate; try done;
    paths_differ;
    match goal with
    | H : local_path ev ≠ _ |- _ =>
        apply not_eq_sym, String.eqb_neq in H; rewrite H in Ha
    end;
    discriminate.
Qed.

(** X10.  An error raised while the handle of the source bucket is built,
    before line 42 binds [local_zip_path], is caught by the [except] clause,
    but the [finally] block then reads the unbound variable: the invocation
    ends with [UnboundLocalError]. *)
Lemma handle_error_escapes_through_finally
    (E : env) (ev : event) (fs0 : gset string) (e : exn) :
  is_zip_name (name ev) = true →
  client_bucket E (Some (bucket ev)) = Some e →
  (invoke E ev fs0).1 = Some (UnboundLocalError "local_zip_path") ∧
  attempted is_download (invoke E ev fs0).2 = false.
Proof.
  intros Hz Hb. unfold is_zip_name in Hz.
  run E ev fs0; try done; rewrite Hz in *; discriminate.
Qed.

End Properties.

(* ===================================================================== *)
(** ** More about names, paths and the selection *)
(* ===================================================================== *)

Module SuffixFacts.
Import PyStr PyStrFacts PathComponent CaseInsensitive Runtime Main MainFacts.

Lemma lower_app (a b : string) : lower (a +:+ b) = lower a +:+ lower b.
Proof.
  induction a as [|c a IH]; [done |].
  rewrite append_cons. cbn [lower]. rewrite append_cons. by f_equal.
Qed.

(** A lowered string splits where its original does. *)
Lemma lower_eq_app (s p q : string) :
  lower s = p +:+ q → ∃ a b, s = a +:+ b ∧ lower a = p ∧ lower b = q.
Proof.
  revert s. induction p as [|c p IH]; intros s H.
  - exists "", s. by rewrite append_nil in H.
  - destruct s as [|d s]; [discriminate |].
    rewrite append_cons in H. cbn [lower] in H. injection H as Hc Hs.
    destruct (IH s Hs) as (a & b & -> & Ha & Hb).
    exists (String d a), b. rewrite append_cons. cbn [lower].
    by rewrite Hc, Ha.
Qed.

Lemma lowered_suffix (n suf : string) :
  endswith (lower n) suf = true ↔ ∃ b ext, n = b +:+ ext ∧ lower ext = suf.
Proof.
  rewrite endswith_true. split.
  - intros [p Hp]. destruct (lower_eq_app _ _ _ Hp) as (a & b & -> & _ & Hb).
    by exists a, b.
  - intros (b & ext & -> & <-). exists (lower b). apply lower_app.
Qed.

(** The characters of the four tested suffixes, in either case, are the
    ones that lower to them. *)
Lemma lower_char_either_case (p c : ascii) :
  existsb (Ascii.eqb p)
    ["."; "/"; "z"; "i"; "p"; "g"; "d"; "b"; "s"; "h"; "c"; "v"]%char = true →
  Ascii.eqb (lower_char c) p = Ascii.eqb c p || Ascii.eqb c (upper_char p).
Proof.
  intros Hp. cbn [existsb] in Hp.
  repeat (apply orb_true_iff in Hp as [Hp | Hp];
          [apply Ascii.eqb_eq in Hp; subst p;
           destruct c as [[] [] [] [] [] [] [] []]; reflexivity |]).
  discriminate.
Qed.

Lemma lower_eqb_spells (pat ext : string) :
  forallb (λ p, existsb (Ascii.eqb p)
             ["."; "/"; "z"; "i"; "p"; "g"; "d"; "b"; "s"; "h"; "c"; "v"]%char)
          (list_ascii_of_string pat) = true →
  String.eqb (lower ext) pat = spells pat ext.
Proof.
  revert ext. induction pat as [|p pat IH]; intros ext Hpat.
  - by destruct ext.
  - cbn [list_ascii_of_string forallb] in Hpat.
    apply andb_true_iff in Hpat as [Hp Hpat].
    destruct ext as [|c ext]; [done |].
    cbn [lower spells String.eqb].
    rewrite (lower_char_either_case p c Hp), (IH ext Hpat).
    by destruct (Ascii.eqb c p || Ascii.eqb c (upper_char p)).
Qed.

Example spells_upper : spells ".zip" ".ZIP" = true.
Proof. reflexivity. Qed.

Example spells_mixed : spells ".gdb/" ".Gdb/" = true.
Proof. reflexivity. Qed.

Example spells_other_letter : spells ".zip" ".zap" = false.
Proof. reflexivity. Qed.

Example spells_longer : spells ".zip" ".zipx" = false.
Proof. reflexivity. Qed.

(** X5.  Each of the four suffix tests (lines 25, 50, 57 and 64) accepts a
    name exactly when the name ends in the tested suffix spelled in any mix
    of upper and lower case: [.zip], [.ZIP] and [.Zip] all pass the test of
    line 25, and nothing but such an ending does. *)
Theorem suffix_tests_accept_either_case (n : string) :
  (is_zip_name n = true ↔ ∃ b ext, n = b +:+ ext ∧ spells ".zip" ext = true) ∧
  (is_gdb_marker n = true ↔ ∃ b ext, n = b +:+ ext ∧ spells ".gdb/" ext = true) ∧
  (is_shapefile n = true ↔ ∃ b ext, n = b +:+ ext ∧ spells ".shp" ext = true) ∧
  (is_csv n = true ↔ ∃ b ext, n = b +:+ ext ∧ spells ".csv" ext = true).
Proof.
  assert (H : ∀ suf,
    forallb (λ p, existsb (Ascii.eqb p)
               ["."; "/"; "z"; "i"; "p"; "g"; "d"; "b"; "s"; "h"; "c"; "v"]%char)
            (list_ascii_of_string suf) = true →
    endswith (lower n) suf = true ↔ ∃ b ext, n = b +:+ ext ∧ spells suf ext = true).
  { intros suf Hsuf. rewrite lowered_suffix.
    split; intros (b & ext & Hn & Hext); exists b, ext; (split; [done |]).
    - rewrite <- (lower_eqb_spells suf ext Hsuf). by apply String.eqb_eq.
    - apply String.eqb_eq. by rewrite (lower_eqb_spells suf ext Hsuf). }
  repeat split; by apply H.
Qed.

Lemma lower_char_fixes (c d : ascii) :
  lower_char c = d → lower_char d = d.
Proof.
  intros <-. destruct c as [[] [] [] [] [] [] [] []]; reflexivity.
Qed.

(** Only [/] lowers to [/], and only [.] to [.]. *)
Lemma lower_char_slash (c : ascii) : lower_char c = "/"%char → c = "/"%char.
Proof. destruct c as [[] [] [] [] [] [] [] []]; vm_compute; congruence. Qed.

Lemma lower_char_dot (c : ascii) : lower_char c = "."%char → c = "."%char.
Proof. destruct c as [[] [] [] [] [] [] [] []]; vm_compute; congruence. Qed.

Lemma lowered_last_char (f suf : string) (c : ascii) :
  suf ≠ "" → last_char suf = Some c →
  endswith (lower f) suf = true → lower_char <$> last_char f = Some c.
Proof.
  intros Hne Hc H. rewrite <- last_char_lower, <- Hc.
  by apply endswith_last_char.
Qed.

(** A geodatabase marker ends in [/]: it is a directory entry. *)
Lemma gdb_marker_is_directory_entry (f : string) :
  is_gdb_marker f = true → last_char f = Some "/"%char.
Proof.
  intros H. pose proof (lowered_last_char f ".gdb/" "/" ltac:(done) eq_refl H) as Hl.
  destruct (last_char f) as [c|]; [| discriminate].
  injection Hl as Hl. by rewrite (lower_char_slash c Hl).
Qed.

(** The three kinds of entry exclude one another. *)
Lemma csv_is_no_gdb_marker (f : string) : is_gdb_marker f = true → is_csv f = false.
Proof.
  intros Hg. destruct (is_csv f) eqn:Hc; [| done].
  pose proof (lowered_last_char f ".gdb/" "/" ltac:(done) eq_refl Hg) as H1.
  pose proof (lowered_last_char f ".csv" "v" ltac:(done) eq_refl Hc) as H2.
  congruence.
Qed.

Lemma csv_is_no_shapefile (f : string) : is_shapefile f = true → is_csv f = false.
Proof.
  intros Hg. destruct (is_csv f) eqn:Hc; [| done].
  pose proof (lowered_last_char f ".shp" "p" ltac:(done) eq_refl Hg) as H1.
  pose proof (lowered_last_char f ".csv" "v" ltac:(done) eq_refl Hc) as H2.
  congruence.
Qed.

Lemma next_or_None_filter (p q : string → bool) (l : list string) :
  (∀ x, p x = true → q x = true) →
  next_or_None p (List.filter q l) = next_or_None p l.
Proof.
  intros Hpq. unfold next_or_None. induction l as [|x l IH]; [done |].
  cbn [List.filter List.find]. destruct (p x) eqn:Hp.
  - rewrite (Hpq x Hp). cbn [List.find]. by rewrite Hp.
  - destruct (q x); [cbn [List.find]; by rewrite Hp | done].
Qed.

(** The selection depends on the first marker and the first shapefile only:
    the third arm of the chain is never entered, in any state. *)
Lemma select_source_depends_on_gdb_and_shp (gcs : string) (l l' : list string) (s : state) :
  next_or_None is_gdb_marker l = next_or_None is_gdb_marker l' →
  next_or_None is_shapefile l = next_or_None is_shapefile l' →
  select_source gcs l s = select_source gcs l' s.
Proof.
  intros Hg Hs. unfold select_source. rewrite Hg, Hs.
  destruct (truthy (next_or_None is_gdb_marker l')); [done |].
  unfold bind, gets.
  destruct (negb (truthy (source_data_path s))) eqn:Hn; [done |].
  rewrite !Hn. reflexivity.
Qed.

(** X2.  Removing every CSV entry from the listing leaves the selection,
    its log line and the resulting state unchanged, in any state: the CSV
    arm of lines 62-67 is never taken. *)
Theorem csv_entries_never_matter (gcs : string) (l : list string) (s : state) :
  select_source gcs (List.filter (λ f, negb (is_csv f)) l) s = select_source gcs l s.
Proof.
  apply select_source_depends_on_gdb_and_shp; apply next_or_None_filter; intros x Hx.
  - by rewrite (csv_is_no_gdb_marker x Hx).
  - by rewrite (csv_is_no_shapefile x Hx).
Qed.

(** X3.  A listing in which no entry ends in [/] (an archive written without
    directory entries) has no geodatabase marker, so the geodatabase arm is
    not taken even when the archive holds the files of a [.gdb] directory. *)
Theorem no_directory_entries_no_geodatabase (l : list string) :
  (∀ f, In f l → last_char f ≠ Some "/"%char) →
  next_or_None is_gdb_marker l = None ∧
  ∀ intra, located_source l ≠ Some (Geodatabase, intra).
Proof.
  intros Hl.
  assert (Hn : next_or_None is_gdb_marker l = None).
  { destruct (next_or_None is_gdb_marker l) as [g|] eqn:Hg; [| done].
    apply next_or_None_Some in Hg as [Hin Hg].
    by destruct (Hl g Hin (gdb_marker_is_directory_entry g Hg)). }
  split; [done |]. intros intra. unfold located_source. rewrite Hn.
  by destruct (next_or_None is_shapefile l).
Qed.

Lemma no_directory_entries_no_geodatabase_witness :
  located_source ["parcels.gdb/a00000001.gdbtable"; "parcels.gdb/gdb"; "parcels.shp"]
    ≠ Some (Geodatabase, "parcels.gdb").
Proof.
  apply (no_directory_entries_no_geodatabase
           ["parcels.gdb/a00000001.gdbtable"; "parcels.gdb/gdb"; "parcels.shp"]).
  intros f [<- | [<- | [<- | []]]]; vm_compute; discriminate.
Defined.

End SuffixFacts.

Module PathFacts.
Import PyStr PyStrFacts PathComponent SuffixFacts Runtime Main MainFacts.

Lemma slash_free_app (a b : string) :
  slash_free (a +:+ b) = slash_free a && slash_free b.
Proof.
  induction a as [|c a IH]; [done |].
  rewrite append_cons. cbn [slash_free]. rewrite IH. by rewrite andb_assoc.
Qed.

(** A component is one piece for [split]. *)
Lemma split_slash_free (n : string) : slash_free n = true → split "/" n = [n].
Proof.
  induction n as [|c n IH]; [done |].
  cbn [slash_free split]. intros [Hc Hn]%andb_true_iff.
  apply negb_true_iff in Hc. rewrite Hc, (IH Hn). done.
Qed.

Lemma split_nonempty (s : string) : split "/" s ≠ [].
Proof.
  destruct s as [|c s]; [done |]. cbn [split].
  destruct (Ascii.eqb c "/"); [done |]. by destruct (split "/" s).
Qed.

(** [split] of a path and a last component. *)
Lemma split_app_component (x n : string) :
  slash_free n = true →
  split "/" (x +:+ "/" +:+ n) = split "/" x ++ [n].
Proof.
  intros Hn. induction x as [|c x IH].
  - rewrite append_nil. change ("/" +:+ n) with (String "/" n).
    cbn [split]. rewrite Ascii.eqb_refl. by rewrite (split_slash_free n Hn).
  - rewrite append_cons. cbn [split]. rewrite IH.
    destruct (Ascii.eqb c "/"); [done |].
    destruct (split "/" x) as [|h t] eqn:Hx; [by destruct (split_nonempty x) | done].
Qed.

Lemma splitroot_relative (c : ascii) (r : string) :
  c ≠ "/"%char → PosixPath.splitroot (String c r) = ("", String c r).
Proof.
  intros Hc. destruct c as [[] [] [] [] [] [] [] []]; try reflexivity.
  by destruct Hc.
Qed.

Lemma splitroot_one_slash (c : ascii) (r : string) :
  c ≠ "/"%char → PosixPath.splitroot (String "/" (String c r)) = ("/", String c r).
Proof.
  intros Hc. destruct c as [[] [] [] [] [] [] [] []]; try reflexivity.
  by destruct Hc.
Qed.

Lemma splitroot_two_slashes (c : ascii) (r : string) :
  c ≠ "/"%char →
  PosixPath.splitroot (String "/" (String "/" (String c r))) = ("//", String c r).
Proof.
  intros Hc. destruct c as [[] [] [] [] [] [] [] []]; try reflexivity.
  by destruct Hc.
Qed.

Lemma slash_free_head (c : ascii) (r : string) :
  slash_free (String c r) = true → c ≠ "/"%char.
Proof.
  cbn [slash_free]. intros [Hc _]%andb_true_iff Heq. subst c. discriminate.
Qed.

(** Whatever [splitroot] strips from [d/n], what is left still ends in the
    component [n]. *)
Lemma splitroot_keeps_last_component (d n : string) :
  slash_free n = true → n ≠ "" →
  ∃ rt rel, PosixPath.splitroot (d +:+ "/" +:+ n) = (rt, rel) ∧
            (rel = n ∨ ∃ x, rel = x +:+ "/" +:+ n).
Proof.
  intros Hn Hne. destruct n as [|c n]; [done |].
  pose proof (slash_free_head _ _ Hn) as Hc.
  destruct d as [|d1 d]; [| destruct (Ascii.eqb_spec d1 "/") as [-> | Hd1]].
  - rewrite append_nil. change ("/" +:+ String c n) with (String "/" (String c n)).
    rewrite (splitroot_one_slash _ _ Hc). eauto.
  - rewrite append_cons.
    destruct d as [|d2 d]; [| destruct (Ascii.eqb_spec d2 "/") as [-> | Hd2]].
    + rewrite append_nil. change ("/" +:+ String c n) with (String "/" (String c n)).
      rewrite (splitroot_two_slashes _ _ Hc). eauto.
    + rewrite append_cons.
      destruct d as [|d3 d]; [| destruct (Ascii.eqb_spec d3 "/") as [-> | Hd3]].
      * rewrite append_nil. change ("/" +:+ String c n) with (String "/" (String c n)).
        exists "/", (String "/" (String "/" (String c n))). split; [done |].
        right. by exists "/".
      * rewrite append_cons.
        exists "/", (String "/" (String "/" (d +:+ "/" +:+ String c n))).
        split; [done |]. right. by exists (String "/" (String "/" d)).
      * rewrite append_cons, (splitroot_two_slashes _ _ Hd3).
        exists "//", (String d3 (d +:+ "/" +:+ String c n)). split; [done |].
        right. by exists (String d3 d).
    + rewrite append_cons, (splitroot_one_slash _ _ Hd2).
      exists "/", (String d2 (d +:+ "/" +:+ String c n)). split; [done |].
      right. by exists (String d2 d).
  - rewrite append_cons, (splitroot_relative _ _ Hd1).
    exists "", (String d1 (d +:+ "/" +:+ String c n)). split; [done |].
    right. by exists (String d1 d).
Qed.

Lemma keep_part_true (n : string) : n ≠ "" → n ≠ "." → PosixPath.keep_part n = true.
Proof.
  intros H1 H2. unfold PosixPath.keep_part.
  destruct (String.eqb_spec n ""); [done |].
  by destruct (String.eqb_spec n ".").
Qed.

(** [Path(n).name] of a single component is the component. *)
Lemma name_of_component (n : string) :
  slash_free n = true → n ≠ "" → n ≠ "." → PosixPath.name n = n.
Proof.
  intros Hs H1 H2. unfold PosixPath.name, PosixPath.parse_path.
  destruct (String.eqb_spec n ""); [done |].
  destruct n as [|c r]; [done |].
  rewrite (splitroot_relative _ _ (slash_free_head _ _ Hs)).
  rewrite (split_slash_free _ Hs). cbn [List.filter].
  by rewrite (keep_part_true _ H1 H2).
Qed.

(** [Path(d/n).name] is [n]: the folders are dropped. *)
Lemma name_drops_folders (d n : string) :
  slash_free n = true → n ≠ "" → n ≠ "." →
  PosixPath.name (d +:+ "/" +:+ n) = n.
Proof.
  intros Hs H1 H2. unfold PosixPath.name, PosixPath.parse_path.
  destruct (String.eqb_spec (d +:+ "/" +:+ n) "") as [He|_].
  { destruct d; discriminate. }
  destruct (splitroot_keeps_last_component d n Hs H1) as (rt & rel & -> & Hrel).
  cbn [PosixPath.tail].
  destruct Hrel as [-> | [x ->]].
  - rewrite (split_slash_free _ Hs). cbn [List.filter].
    by rewrite (keep_part_true _ H1 H2).
  - rewrite (split_app_component _ _ Hs), List.filter_app. cbn [List.filter].
    rewrite (keep_part_true _ H1 H2). apply List.last_last.
Qed.

Lemma rfind_app (c : ascii) (a s : string) :
  rfind c (a +:+ s) =
  match rfind c s with
  | Some i => Some (String.length a + i)
  | None => rfind c a
  end.
Proof.
  induction a as [|x a IH].
  - rewrite append_nil. cbn [rfind String.length]. by destruct (rfind c s).
  - rewrite append_cons. cbn [rfind String.length]. rewrite IH.
    by destruct (rfind c s).
Qed.

Lemma substring_prefix (a s : string) :
  substring 0 (String.length a) (a +:+ s) = a.
Proof.
  induction a as [|x a IH].
  - rewrite append_nil. by destruct s.
  - rewrite append_cons. cbn [String.length substring]. by rewrite IH.
Qed.

Lemma length_app (a s : string) :
  String.length (a +:+ s) = String.length a + String.length s.
Proof.
  induction a as [|x a IH]; [done |].
  rewrite append_cons. cbn [String.length]. by rewrite IH.
Qed.

(** An extension that lowers to [.zip] is a dot and three letters. *)
Lemma zip_extension_shape (ext : string) :
  lower ext = ".zip" →
  ∃ c2 c3 c4, ext = String "." (String c2 (String c3 (String c4 ""))) ∧
    lower_char c2 = "z"%char ∧ lower_char c3 = "i"%char ∧ lower_char c4 = "p"%char.
Proof.
  destruct ext as [|c1 [|c2 [|c3 [|c4 [|c5 ext]]]]]; try discriminate.
  cbn [lower]. intros [= H1 H2 H3 H4].
  apply lower_char_dot in H1 as ->. by exists c2, c3, c4.
Qed.

Lemma rfind_zip_extension (ext : string) :
  lower ext = ".zip" → rfind "." ext = Some 0 ∧ String.length ext = 4 ∧ slash_free ext = true.
Proof.
  intros (c2 & c3 & c4 & -> & H2 & H3 & H4)%zip_extension_shape.
  assert (Hd : ∀ c x, lower_char c = x → x ≠ "."%char → Ascii.eqb c "." = false).
  { intros c x Hc Hx. destruct (Ascii.eqb_spec c "."); [| done]. subst c.
    vm_compute in Hc. congruence. }
  assert (Hs : ∀ c x, lower_char c = x → x ≠ "/"%char → Ascii.eqb c "/" = false).
  { intros c x Hc Hx. destruct (Ascii.eqb_spec c "/"); [| done]. subst c.
    vm_compute in Hc. congruence. }
  cbn [rfind String.length slash_free].
  rewrite (Hd _ _ H2), (Hd _ _ H3), (Hd _ _ H4) by done.
  rewrite (Hs _ _ H2), (Hs _ _ H3), (Hs _ _ H4) by done.
  done.
Qed.

(** [Path(b + ext).stem] strips a zip extension from a base name. *)
Lemma stem_of_zip_name (b ext : string) :
  slash_free b = true → b ≠ "" → lower ext = ".zip" →
  slash_free (b +:+ ext) = true ∧ b +:+ ext ≠ "" ∧ b +:+ ext ≠ "." ∧
  (PosixPath.name (b +:+ ext) = b +:+ ext →
   PosixPath.stem (b +:+ ext) = b).
Proof.
  intros Hb Hne Hext.
  destruct (rfind_zip_extension ext Hext) as (Hr & Hl & Hs).
  split; [by rewrite slash_free_app, Hb, Hs |].
  assert (Hlen : String.length (b +:+ ext) = String.length b + 4)
    by (by rewrite length_app, Hl).
  assert (Hpos : 0 < String.length b) by (destruct b; [done | cbn; lia]).
  split; [intros Heq; rewrite Heq in Hlen; cbn in Hlen; lia |].
  split; [intros Heq; rewrite Heq in Hlen; cbn in Hlen; lia |].
  intros Hname. unfold PosixPath.stem. rewrite Hname, rfind_app, Hr, Hlen.
  replace (String.length b + 0) with (String.length b) by lia.
  destruct (Nat.ltb_spec 0 (String.length b)); [| lia].
  destruct (Nat.ltb_spec (String.length b) (String.length b + 4 - 1)); [| lia].
  cbn [andb]. apply substring_prefix.
Qed.

(** X6.  For an object named [base + ext], alone or under any folder prefix
    [d/], where [base] is a non-empty single component and [ext] is [.zip]
    in any letter case, the uploaded object is named [base.parquet] and the
    scratch output is [/tmp/base.parquet]: the folder is dropped, so
    archives with one base name in different folders share one output
    name. *)
Theorem output_name_is_base_name
    (bk d b ext : string) :
  slash_free b = true → b ≠ "" → lower ext = ".zip" →
  output_blob_name (Event bk (b +:+ ext)) = b +:+ ".parquet" ∧
  output_blob_name (Event bk (d +:+ "/" +:+ b +:+ ext)) = b +:+ ".parquet" ∧
  temp_output_path (Event bk (d +:+ "/" +:+ b +:+ ext)) = "/tmp/" +:+ b +:+ ".parquet".
Proof.
  intros Hb Hne Hext.
  destruct (stem_of_zip_name b ext Hb Hne Hext) as (Hs & H1 & H2 & Hstem).
  assert (Hplain : PosixPath.stem (b +:+ ext) = b)
    by (apply Hstem; by apply name_of_component).
  assert (Hdir : PosixPath.stem (d +:+ "/" +:+ b +:+ ext) = b).
  { unfold PosixPath.stem. rewrite (name_drops_folders d _ Hs H1 H2).
    pose proof (name_of_component _ Hs H1 H2) as Hn.
    unfold PosixPath.stem in Hplain. by rewrite Hn in Hplain. }
  unfold temp_output_path, output_blob_name, output_filename_stem. cbn [name].
  by rewrite Hplain, Hdir.
Qed.

Lemma output_name_is_base_name_witness :
  output_blob_name (Event "bucket" ("in/2024" +:+ "/" +:+ "Roads.v2" +:+ ".ZIP")) =
    "Roads.v2" +:+ ".parquet".
Proof.
  apply (output_name_is_base_name "bucket" "in/2024" "Roads.v2" ".ZIP"); [reflexivity | done | reflexivity].
Defined.

Lemma split_trailing_slash (n : string) :
  slash_free n = true → split "/" (n +:+ "/") = [n; ""].
Proof.
  induction n as [|c n IH]; [done |].
  intros Hs. pose proof (slash_free_head _ _ Hs) as Hc.
  cbn [slash_free] in Hs. apply andb_true_iff in Hs as [_ Hs].
  rewrite append_cons. cbn [split]. rewrite (IH Hs).
  by destruct (Ascii.eqb_spec c "/").
Qed.

(** X4.  A directory entry [NAME.gdb/] at the top of the archive is a
    geodatabase marker, its [Path(...).parent] is [.], and when it is the
    first marker the selected source path is the archive's virtual path
    followed by [/.]: the archive root, not the geodatabase directory. *)
Theorem top_level_geodatabase_resolves_to_archive_root
    (gcs n : string) (l : list string) (s : state) :
  slash_free n = true →
  endswith (lower n) ".gdb" = true →
  next_or_None is_gdb_marker l = Some (n +:+ "/") →
  is_gdb_marker (n +:+ "/") = true ∧
  PosixPath.parent (n +:+ "/") = "." ∧
  select_source gcs l s = (Normal tt, found gcs Geodatabase "." s).
Proof.
  intros Hs Hgdb Hl.
  assert (Hm : is_gdb_marker (n +:+ "/") = true).
  { apply endswith_true in Hgdb as [p Hp]. unfold is_gdb_marker.
    apply endswith_true. exists p. rewrite lower_app, Hp. apply append_assoc. }
  assert (Hpar : PosixPath.parent (n +:+ "/") = ".").
  { destruct n as [|c n]; [discriminate |].
    assert (H2 : String c n ≠ ".") by (intros Heq; rewrite Heq in Hgdb; discriminate).
    unfold PosixPath.parent, PosixPath.parse_path. rewrite append_cons.
    cbn [String.eqb]. 
    rewrite (splitroot_relative _ _ (slash_free_head _ _ Hs)).
    rewrite <- append_cons, (split_trailing_slash _ Hs). cbn [List.filter].
    rewrite (keep_part_true (String c n)) by done. reflexivity. }
  split; [done |]. split; [done |].
  by rewrite (select_source_gdb gcs l _ s Hl), Hpar.
Qed.

Lemma top_level_geodatabase_resolves_to_archive_root_witness :
  select_source "/vsizip//vsigs/bucket/parcels_2024.zip"
    ["parcels_2024.shp"; "Parcels_2024.GDB/"] (entry ∅) =
  (Normal tt,
   found "/vsizip//vsigs/bucket/parcels_2024.zip" Geodatabase "." (entry ∅)).
Proof.
  apply (top_level_geodatabase_resolves_to_archive_root
           "/vsizip//vsigs/bucket/parcels_2024.zip" "Parcels_2024.GDB"
           ["parcels_2024.shp"; "Parcels_2024.GDB/"] (entry ∅)); reflexivity.
Defined.

End PathFacts.

Module OrderFacts.
Import PyStr PyStrFacts SuffixFacts Runtime Main MainFacts.

Lemma next_or_None_first (p : string → bool) (pre post : list string) (f : string) :
  existsb p pre = false → p f = true →
  next_or_None p (pre ++ f :: post) = Some f.
Proof.
  intros Hpre Hf. unfold next_or_None. induction pre as [|x pre IH].
  - cbn [app List.find]. by rewrite Hf.
  - cbn [existsb] in Hpre. apply orb_false_iff in Hpre as [Hx Hpre].
    cbn [app List.find]. rewrite Hx. by apply IH.
Qed.

Lemma next_or_None_app_absent (p : string → bool) (pre post : list string) (f : string) :
  existsb p pre = false → p f = false → existsb p post = false →
  next_or_None p (pre ++ f :: post) = None.
Proof.
  intros Hpre Hf Hpost. apply next_or_None_absent.
  rewrite existsb_app. cbn [existsb]. by rewrite Hpre, Hf, Hpost.
Qed.

Lemma shapefile_is_no_gdb_marker (f : string) :
  is_shapefile f = true → is_gdb_marker f = false.
Proof.
  intros Hs. destruct (is_gdb_marker f) eqn:Hg; [| done].
  pose proof (lowered_last_char f ".gdb/" "/" ltac:(done) eq_refl Hg) as H1.
  pose proof (lowered_last_char f ".shp" "p" ltac:(done) eq_refl Hs) as H2.
  congruence.
Qed.

(** X16.  Among several candidates the first in listing order wins: a
    geodatabase marker preceded by no other marker is the one selected
    whatever follows it, and, in an archive without markers, a shapefile
    preceded by no other shapefile is the one selected whatever shapefiles
    follow; the later candidates are ignored. *)
Theorem first_listed_entry_wins
    (gcs : string) (pre post : list string) (f : string) (s : state) :
  source_data_path s = None →
  existsb is_gdb_marker pre = false →
  (is_gdb_marker f = true →
   select_source gcs (pre ++ f :: post) s =
     (Normal tt, found gcs Geodatabase (PosixPath.parent f) s)) ∧
  (is_shapefile f = true →
   existsb is_shapefile pre = false →
   existsb is_gdb_marker post = false →
   select_source gcs (pre ++ f :: post) s = (Normal tt, found gcs Shapefile f s)).
Proof.
  intros Hs Hpre. split.
  - intros Hf. apply select_source_gdb. by apply next_or_None_first.
  - intros Hf Hshp Hpost. rewrite (select_source_located _ _ _ Hs).
    unfold located_source.
    rewrite (next_or_None_app_absent _ _ _ _ Hpre (shapefile_is_no_gdb_marker f Hf) Hpost).
    by rewrite (next_or_None_first _ _ _ _ Hshp Hf).
Qed.

Lemma first_listed_entry_wins_witness :
  select_source "/vsizip//vsigs/bucket/roads.zip"
    (["readme.txt"] ++ "north.shp" :: ["south.shp"; "west.shp"]) (entry ∅) =
  (Normal tt, found "/vsizip//vsigs/bucket/roads.zip" Shapefile "north.shp" (entry ∅)).
Proof.
  apply (first_listed_entry_wins "/vsizip//vsigs/bucket/roads.zip"
           ["readme.txt"] ["south.shp"; "west.shp"] "north.shp" (entry ∅));
    reflexivity.
Defined.

End OrderFacts.

(* ===================================================================== *)
(** ** More about whole invocations *)
(* ===================================================================== *)

Module RunProperties.
Import PyStr PyStrFacts Runtime Main MainFacts Exec Scenarios MoreScenarios.

(** X1.  When the listed archive holds no geodatabase marker but a
    shapefile, the first shapefile entry [f] is selected as it is named: the
    source path is the archive's virtual path followed by [/f], the log goes
    from "Processing" to "Found Shapefile" to "Converting", any call of the
    converter is on that path, and when the options object of line 90 is
    built the converter is called exactly once. *)
Theorem shapefile_selected_without_geodatabase
    (E : env) (ev : event) (fs0 : gset string) (l : list string) :
  attempted is_open_zip (invoke E ev fs0).2 = true →
  zip_namelist E (local_path ev) = ZipOk l →
  existsb is_gdb_marker l = false →
  existsb is_shapefile l = true →
  ∃ f, next_or_None is_shapefile l = Some f ∧ In f l ∧ is_shapefile f = true ∧
    source_data_path (invoke E ev fs0).2 = Some (gcs_zip_path ev +:+ "/" +:+ f) ∧
    take 3 (log (invoke E ev fs0).2) =
      ["Processing file: " +:+ name ev +:+ " from bucket: " +:+ bucket ev +:+ ".";
       "Found Shapefile: " +:+ gcs_zip_path ev +:+ "/" +:+ f;
       "Converting " +:+ (gcs_zip_path ev +:+ "/" +:+ f) +:+
       " to " +:+ temp_output_path ev +:+ "..."] ∧
    (vector_translate_options E options = None →
     attempts is_convert (invoke E ev fs0).2 = 1) ∧
    (∀ dst src opts, ActConvert dst src opts ∈ acts (invoke E ev fs0).2 →
       src = gcs_zip_path ev +:+ "/" +:+ f).
Proof.
  intros Ha Ho Hg (f & Hf & Hin & Hp)%next_or_None_existsb.
  exists f. do 3 (split; [done |]).
  assert (Hl : located_source l = Some (Shapefile, f)).
  { unfold located_source. by rewrite (next_or_None_absent _ _ Hg), Hf. }
  revert Ha Ho.
  run E ev fs0; intros Ha Ho; try discriminate; simplify_eq;
    do 2 (split; [done |]); (split; [intros; congruence |]);
    intros dst src opts Hc; inv_elem Hc; congruence.
Qed.

Lemma shapefile_selected_without_geodatabase_witness :
  existsb is_gdb_marker ["notes.csv"; "a/Roads.SHP"; "b.shp"] = false ∧
  source_data_path
    (invoke (all_fine ["notes.csv"; "a/Roads.SHP"; "b.shp"]) roads_zip ∅).2 =
    Some "/vsizip//vsigs/bucket/roads.zip/a/Roads.SHP".
Proof.
  split; [reflexivity |].
  destruct (shapefile_selected_without_geodatabase
              (all_fine ["notes.csv"; "a/Roads.SHP"; "b.shp"]) roads_zip ∅
              ["notes.csv"; "a/Roads.SHP"; "b.shp"])
    as (f & Hf & _ & _ & Hs & _); [reflexivity .. |].
  vm_compute in Hf. injection Hf as <-. exact Hs.
Defined.

(** X8.  When the converter raises an error (an instance of [Exception]),
    the invocation logs "Error during GDAL conversion" with the error's text
    as its last line and returns: no upload is attempted, and a partial
    output the converter wrote stays on scratch storage. *)
Theorem conversion_error_is_contained
    (E : env) (ev : event) (fs0 : gset string)
    (dst src : string) (opts : translate_options) (e : exn) :
  ActConvert dst src opts ∈ acts (invoke E ev fs0).2 →
  conv_raises (vector_translate E dst src) = Some e →
  is_Exception e = true →
  (invoke E ev fs0).1 = None ∧
  last (log (invoke E ev fs0).2) =
    Some ("Error during GDAL conversion: " +:+ exn_str e) ∧
  attempted is_upload (invoke E ev fs0).2 = false ∧
  uploaded (invoke E ev fs0).2 = [] ∧
  (conv_writes (vector_translate E dst src) = true →
   temp_output_path ev ∈ fs (invoke E ev fs0).2).
Proof.
  run E ev fs0; intros Hin He Hexc; inv_elem Hin; simplify_eq;
    try congruence;
    repeat split; try done; intros Hw; try congruence; set_solver.
Qed.

Lemma conversion_error_is_contained_witness :
  (invoke (converter_fails ["roads.shp"]) roads_zip ∅).1 = None ∧
  last (log (invoke (converter_fails ["roads.shp"]) roads_zip ∅).2) =
    Some "Error during GDAL conversion: Unable to open datasource".
Proof.
  destruct (conversion_error_is_contained
              (converter_fails ["roads.shp"]) roads_zip ∅
              "/tmp/roads.parquet" "/vsizip//vsigs/bucket/roads.zip/roads.shp"
              options GDALError) as (H1 & H2 & _).
  - vm_compute. do 3 right. left.
  - reflexivity.
  - reflexivity.
  - split; [exact H1 | exact H2].
Defined.

(** X7.  When every step goes through (the name is a zip name, the handles
    are built, the download succeeds, the listing yields a source, the
    options object of line 90 is built, the converter returns having
    written its output, the upload succeeds), the
    invocation returns normally after exactly six calls in the order
    download, open, remove the archive copy, convert, upload, remove the
    output; the one object uploaded is [<stem>.parquet] in the configured
    bucket; the log has its six lines; and both scratch files are gone. *)
Theorem successful_run
    (E : env) (ev : event) (fs0 : gset string)
    (l : list string) (k : source_kind) (intra : string) :
  is_zip_name (name ev) = true →
  client_bucket E (Some (bucket ev)) = None →
  blob_download E (bucket ev) (name ev) (local_path ev) = DownloadOk →
  zip_namelist E (local_path ev) = ZipOk l →
  located_source l = Some (k, intra) →
  vector_translate_options E options = None →
  vector_translate E (temp_output_path ev) (gcs_zip_path ev +:+ "/" +:+ intra) =
    ConvertResult None true →
  client_bucket E (OUTPUT_BUCKET_NAME E) = None →
  blob_upload E (OUTPUT_BUCKET_NAME E) (output_blob_name ev) (temp_output_path ev) = None →
  (invoke E ev fs0).1 = None ∧
  uploaded (invoke E ev fs0).2 = [(OUTPUT_BUCKET_NAME E, output_blob_name ev)] ∧
  acts (invoke E ev fs0).2 =
    [ActDownload (bucket ev) (name ev) (local_path ev);
     ActOpenZip (local_path ev);
     ActRemove (local_path ev);
     ActConvert (temp_output_path ev) (gcs_zip_path ev +:+ "/" +:+ intra) options;
     ActUpload (OUTPUT_BUCKET_NAME E) (output_blob_name ev) (temp_output_path ev);
     ActRemove (temp_output_path ev)] ∧
  log (invoke E ev fs0).2 =
    ["Processing file: " +:+ name ev +:+ " from bucket: " +:+ bucket ev +:+ ".";
     "Found " +:+ kind_label k +:+ ": " +:+ gcs_zip_path ev +:+ "/" +:+ intra;
     "Converting " +:+ (gcs_zip_path ev +:+ "/" +:+ intra) +:+
       " to " +:+ temp_output_path ev +:+ "...";
     "Conversion successful.";
     "Uploading " +:+ output_blob_name ev +:+ " to bucket " +:+
       fmt (OUTPUT_BUCKET_NAME E) +:+ "...";
     "Upload complete."] ∧
  fs (invoke E ev fs0).2 = fs0 ∖ {[local_path ev]} ∖ {[temp_output_path ev]}.
Proof.
  intros Hz Hb Hd Ho Hl Hopt Hc Hob Hu. unfold is_zip_name in Hz.
  run E ev fs0; simplify_eq;
    try (rewrite Hz in *; discriminate);
    try (rewrite Hc in *; discriminate);
    try (exfalso; set_solver);
    repeat split; try done; set_solver.
Qed.

Lemma successful_run_witness :
  uploaded (invoke (all_fine ["roads.shp"]) roads_zip {["/tmp/other"]}).2 =
    [(Some "out", "roads.parquet")] ∧
  fs (invoke (all_fine ["roads.shp"]) roads_zip {["/tmp/other"]}).2 =
    {["/tmp/other"]} ∖ {[local_path roads_zip]} ∖ {[temp_output_path roads_zip]}.
Proof.
  destruct (successful_run (all_fine ["roads.shp"]) roads_zip {["/tmp/other"]}
              ["roads.shp"] Shapefile "roads.shp")
    as (_ & H2 & _ & _ & H5); [reflexivity .. |].
  split; [exact H2 | exact H5].
Defined.

(** X9.  An exception that is not an instance of [Exception] (such as
    [KeyboardInterrupt]) raised by the download or by opening the archive is
    not caught by line 69: it leaves the function with no error line
    logged, but the [finally] block has still run and the local archive copy
    is gone. *)
Theorem interrupt_passes_through_after_cleanup
    (E : env) (ev : event) (fs0 : gset string) (e : exn) (leaves : bool) :
  is_Exception e = false →
  (attempted is_download (invoke E ev fs0).2 = true ∧
   blob_download E (bucket ev) (name ev) (local_path ev) = DownloadRaises e leaves)
  ∨ (attempted is_open_zip (invoke E ev fs0).2 = true ∧
     zip_namelist E (local_path ev) = ZipRaises e) →
  (invoke E ev fs0).1 = Some e ∧
  log (invoke E ev fs0).2 =
    ["Processing file: " +:+ name ev +:+ " from bucket: " +:+ bucket ev +:+ "."] ∧
  attempted is_convert (invoke E ev fs0).2 = false ∧
  fs (invoke E ev fs0).2 = fs0 ∖ {[local_path ev]}.
Proof.
  intros He.
  run E ev fs0; intros [[Ha Ho] | [Ha Ho]];
    try discriminate; simplify_eq; try congruence;
    repeat split; try done; set_solver.
Qed.

Lemma interrupt_passes_through_after_cleanup_witness :
  (invoke interrupted_download roads_zip ∅).1 = Some KeyboardInterrupt ∧
  fs (invoke interrupted_download roads_zip ∅).2 = ∅ ∖ {[local_path roads_zip]}.
Proof.
  destruct (interrupt_passes_through_after_cleanup interrupted_download roads_zip ∅
              KeyboardInterrupt true) as (H1 & _ & _ & H4).
  - reflexivity.
  - left. split; reflexivity.
  - split; [exact H1 | exact H4].
Defined.

(** X13.  On every path through the function, scratch storage differs from
    what it was at entry at most in the two paths [/tmp/<name>] and
    [/tmp/<stem>.parquet]: no other file is created or deleted. *)
Theorem only_own_scratch_paths_touched
    (E : env) (ev : event) (fs0 : gset string) :
  fs (invoke E ev fs0).2 ∖ {[local_path ev; temp_output_path ev]} =
  fs0 ∖ {[local_path ev; temp_output_path ev]}.
Proof.
  run E ev fs0; set_solver.
Qed.

(** X14.  On every path through the function each external call (download,
    opening the archive, conversion, upload) is made at most once, and at
    most one object is uploaded: nothing is retried. *)
Theorem every_call_at_most_once
    (E : env) (ev : event) (fs0 : gset string) :
  attempts is_download (invoke E ev fs0).2 ≤ 1 ∧
  attempts is_open_zip (invoke E ev fs0).2 ≤ 1 ∧
  attempts is_convert (invoke E ev fs0).2 ≤ 1 ∧
  attempts is_upload (invoke E ev fs0).2 ≤ 1 ∧
  length (uploaded (invoke E ev fs0).2) ≤ 1.
Proof.
  run E ev fs0; repeat split; lia.
Qed.

(** X15.  Every call the function makes uses the names derived from the
    event: the download reads the event's object into [/tmp/<name>], the
    archive opened is that file, the converter writes [/tmp/<stem>.parquet]
    from the selected source path with the fixed options, the upload sends
    that file to the configured bucket as [<stem>.parquet], and only those
    two scratch files are ever removed. *)
Theorem calls_use_own_names
    (E : env) (ev : event) (fs0 : gset string) (a : action) :
  a ∈ acts (invoke E ev fs0).2 →
  match a with
  | ActDownload b n dst => b = bucket ev ∧ n = name ev ∧ dst = local_path ev
  | ActOpenZip p => p = local_path ev
  | ActConvert dst src opts =>
      dst = temp_output_path ev ∧ opts = options ∧
      Some src = source_data_path (invoke E ev fs0).2
  | ActUpload b n src =>
      b = OUTPUT_BUCKET_NAME E ∧ n = output_blob_name ev ∧ src = temp_output_path ev
  | ActRemove p => p = local_path ev ∨ p = temp_output_path ev
  end.
Proof.
  run E ev fs0; intros Hin; inv_elem Hin; subst a; auto.
Qed.

Lemma calls_use_own_names_witness :
  ActUpload (Some "out") "roads.parquet" "/tmp/roads.parquet"
    ∈ acts (invoke (all_fine ["roads.shp"]) roads_zip ∅).2 ∧
  Some "out" = OUTPUT_BUCKET_NAME (all_fine ["roads.shp"]) ∧
  "roads.parquet" = output_blob_name roads_zip ∧
  "/tmp/roads.parquet" = temp_output_path roads_zip.
Proof.
  assert (H : ActUpload (Some "out") "roads.parquet" "/tmp/roads.parquet"
                ∈ acts (invoke (all_fine ["roads.shp"]) roads_zip ∅).2)
    by (vm_compute; do 4 right; left).
  split; [exact H |].
  exact (calls_use_own_names (all_fine ["roads.shp"]) roads_zip ∅ _ H).
Defined.

(** X17.  The options object of line 90 is built outside every [try]: when
    a source was selected and the constructor raises [e], whatever [e] is,
    that exception leaves the function; the log stops at the "Converting"
    line, and neither the converter nor the upload is called. *)
Theorem options_error_escapes
    (E : env) (ev : event) (fs0 : gset string) (P : string) (e : exn) :
  source_data_path (invoke E ev fs0).2 = Some P →
  vector_translate_options E options = Some e →
  (invoke E ev fs0).1 = Some e ∧
  last (log (invoke E ev fs0).2) =
    Some ("Converting " +:+ P +:+ " to " +:+ temp_output_path ev +:+ "...") ∧
  attempted is_convert (invoke E ev fs0).2 = false ∧
  attempted is_upload (invoke E ev fs0).2 = false ∧
  uploaded (invoke E ev fs0).2 = [] ∧
  (local_path ev ∉ fs (invoke E ev fs0).2).
Proof.
  run E ev fs0; intros Hs Hopt; try discriminate; simplify_eq;
    repeat split; try done; set_solver.
Qed.

Lemma options_error_escapes_witness :
  source_data_path (invoke (options_rejected ["roads.shp"]) roads_zip ∅).2 =
    Some "/vsizip//vsigs/bucket/roads.zip/roads.shp" ∧
  (invoke (options_rejected ["roads.shp"]) roads_zip ∅).1 = Some TypeError ∧
  attempted is_convert (invoke (options_rejected ["roads.shp"]) roads_zip ∅).2 = false.
Proof.
  split; [reflexivity |].
  destruct (options_error_escapes (options_rejected ["roads.shp"]) roads_zip ∅
              "/vsizip//vsigs/bucket/roads.zip/roads.shp" TypeError)
    as (H1 & _ & H3 & _); [reflexivity .. |].
  split; [exact H1 | exact H3].
Defined.

(** X11.  The check of line 114 tests existence only: when the converter
    returns without writing but a file already sits at the output path (left
    by an earlier invocation), the invocation proceeds to the upload, and if
    the upload succeeds that stale file is what gets published and is then
    removed. *)
Theorem stale_output_is_uploaded
    (E : env) (ev : event) (fs0 : gset string)
    (dst src : string) (opts : translate_options) :
  ActConvert dst src opts ∈ acts (invoke E ev fs0).2 →
  vector_translate E dst src = ConvertResult None false →
  temp_output_path ev ∈ fs0 →
  client_bucket E (OUTPUT_BUCKET_NAME E) = None →
  attempted is_upload (invoke E ev fs0).2 = true ∧
  "Conversion successful." ∈ log (invoke E ev fs0).2 ∧
  (blob_upload E (OUTPUT_BUCKET_NAME E) (output_blob_name ev) (temp_output_path ev) = None →
   (invoke E ev fs0).1 = None ∧
   uploaded (invoke E ev fs0).2 = [(OUTPUT_BUCKET_NAME E, output_blob_name ev)] ∧
   temp_output_path ev ∉ fs (invoke E ev fs0).2).
Proof.
  run E ev fs0; intros Hin Hconv Hstale Hob; inv_elem Hin; simplify_eq;
    rewrite Hconv in *; cbn [conv_raises conv_writes] in *;
    try discriminate;
    try (paths_differ; exfalso; set_solver);
    (split; [done |]); (split; [set_solver |]);
    intros Hup; try congruence;
    repeat split; try done; set_solver.
Qed.

Lemma stale_output_is_uploaded_witness :
  temp_output_path roads_zip ∈ ({["/tmp/roads.parquet"]} : gset string) ∧
  uploaded (invoke (silent_converter ["roads.shp"]) roads_zip {["/tmp/roads.parquet"]}).2 =
    [(Some "out", "roads.parquet")].
Proof.
  split; [reflexivity |].
  destruct (stale_output_is_uploaded (silent_converter ["roads.shp"]) roads_zip
              {["/tmp/roads.parquet"]}
              "/tmp/roads.parquet" "/vsizip//vsigs/bucket/roads.zip/roads.shp" options)
    as (_ & _ & H).
  - vm_compute. do 3 right. left.
  - reflexivity.
  - reflexivity.
  - reflexivity.
  - destruct H as (_ & H & _); [reflexivity | exact H].
Defined.

Lemma handle_error_escapes_through_finally_witness :
  is_zip_name (name roads_zip) = true ∧
  (invoke bad_bucket_name roads_zip ∅).1 = Some (UnboundLocalError "local_zip_path").
Proof.
  split; [reflexivity |].
  apply (Properties.handle_error_escapes_through_finally bad_bucket_name roads_zip ∅
           ValueError); reflexivity.
Defined.

Lemma output_removed_only_after_upload_witness :
  attempted (is_remove_of (temp_output_path roads_zip))
    (invoke (all_fine ["roads.shp"]) roads_zip ∅).2 = true ∧
  uploaded (invoke (all_fine ["roads.shp"]) roads_zip ∅).2 =
    [(Some "out", "roads.parquet")].
Proof.
  split; [reflexivity |].
  apply (Properties.output_removed_only_after_upload (all_fine ["roads.shp"])
           roads_zip ∅); reflexivity.
Defined.

End RunProperties.
